(** * Pie-Dash: the collection-pattern engine of [generate_pie_insights.py]

    A shallow embedding of the delay/risk/forecast computations of
    [src/generate_pie_insights.py] and of the report footer of
    [src/data_analysis.py], with the properties the specification states
    about them.

    Modelling conventions.
    - A pandas [Timestamp] is a rational number of days since 1970-01-01
      (the fractional part is the time of day); a [Timedelta] is a rational
      number of days and its [.days] attribute is the floor.
    - Python and numpy floats are modelled by exact rationals ([Q]); [nan]
      is [None] where a call site can produce it.
    - A data frame is the list of its rows, in row order; a [dict] whose
      iteration order matters is an association list in insertion order.
    - A raised exception is the [Raise] constructor of [result]. *)

From Stdlib Require Import String Ascii DecimalString ZArith QArith Qround Qminmax Qabs Bool List Finite
  Permutation Sorted Lia Lqa.
Import ListNotations.

Open Scope Z_scope.

(** ** Time *)

Definition Timestamp : Type := Q.
Definition Timedelta : Type := Q.

(** [td.days]: whole days of a time difference, rounded towards minus
    infinity as Python's normalised [timedelta] does. *)
Definition days (td : Timedelta) : Z := Qfloor td.

(** [timedelta(days=x)] *)
Definition timedelta (x : Q) : Timedelta := x.

(** [pd.to_datetime('2023-04-10')]: day 19457 since 1970-01-01, at midnight. *)
Definition reference_day : Z := 19457.
Definition reference_date : Timestamp := inject_Z reference_day.

(** [ts.strftime('%Y-%m-%d')], kept as the day number of the calendar date;
    [pd.to_datetime] of that string is midnight of the same day. *)
Definition strftime_ymd (ts : Timestamp) : Z := Qfloor ts.
Definition to_datetime (day : Z) : Timestamp := inject_Z day.

(** ** Numbers *)

Fixpoint sumZ (xs : list Z) : Z :=
  match xs with
  | [] => 0
  | x :: xs' => x + sumZ xs'
  end.

Fixpoint sumQ (xs : list Q) : Q :=
  match xs with
  | [] => 0%Q
  | x :: xs' => (x + sumQ xs')%Q
  end.

(** [np.mean] of a non-empty list of integers. *)
Definition np_mean (xs : list Z) : Q :=
  (inject_Z (sumZ xs) / inject_Z (Z.of_nat (length xs)))%Q.

(** [np.mean] of a list of floats; [nan] on the empty list. *)
Definition np_mean_nan (xs : list Q) : option Q :=
  match xs with
  | [] => None
  | _ => Some (sumQ xs / inject_Z (Z.of_nat (length xs)))%Q
  end.

(** Round to the nearest integer, halves to the even neighbour. *)
Definition rint (x : Q) : Z :=
  let f := Qfloor x in
  match ((x - inject_Z f) ?= (1 # 2))%Q with
  | Lt => f
  | Gt => f + 1
  | Eq => if Z.even f then f else f + 1
  end.

(** [round(x, 1)] *)
Definition round1 (x : Q) : Q := (inject_Z (rint (x * 10)) / 10)%Q.

(** ** Risk tiers *)

Inductive RiskLevel : Type := normal | upcoming | warning | critical.

Definition risk_eqb (a b : RiskLevel) : bool :=
  match a, b with
  | normal, normal | upcoming, upcoming
  | warning, warning | critical, critical => true
  | _, _ => false
  end.

Definition get_risk_level (days_overdue : Z) : RiskLevel :=
  if days_overdue <=? 0 then normal
  else if days_overdue <=? 5 then upcoming
  else if days_overdue <=? 10 then warning
  else critical.

(** ** Events and data frames

    The text columns of a row are taken to be filled in. A blank [Category]
    or [Area] cell is NaN in pandas, a key that [unique()] lists but that
    equals no cell; frames with such cells are outside this model. *)

Record CollectionEvent : Type := {
  Trade_License_Number : option Z;      (* [None]: NaN after [to_numeric(errors='coerce')] *)
  New_E_ID : string;
  Entity_Mapping_Outlet : string;
  Category : string;
  Area : string;
  Zone : string;
  Service_Provider : string;
  Collected_Date : Timestamp;           (* never NaT: the loader's Q1 filter drops NaT rows *)
  Sum_of_Gallons_Collected : option Q   (* [None]: NaN *)
}.

Definition DataFrame : Type := list CollectionEvent.

(** [series.unique()]: distinct values in order of first appearance. *)
Section Unique.
Context {A : Type} (eqb : A -> A -> bool).

Fixpoint unique_from (seen : list A) (xs : list A) : list A :=
  match xs with
  | [] => []
  | x :: xs' =>
      if existsb (eqb x) seen then unique_from seen xs'
      else x :: unique_from (x :: seen) xs'
  end.

Definition unique (xs : list A) : list A := unique_from [] xs.
End Unique.

(** [series.dropna()] *)
Fixpoint dropna {A : Type} (xs : list (option A)) : list A :=
  match xs with
  | [] => []
  | Some x :: xs' => x :: dropna xs'
  | None :: xs' => dropna xs'
  end.

(** [df.sort_values('Collected Date')]. pandas leaves the order of rows with
    equal dates open; the model keeps their frame order. The sequence of
    dates of the sorted rows, which alone decides the intervals, is the same
    for every such order. *)
Fixpoint insert_by_date (e : CollectionEvent) (rows : DataFrame) : DataFrame :=
  match rows with
  | [] => [e]
  | r :: rows' =>
      if Qle_bool (Collected_Date e) (Collected_Date r) then e :: r :: rows'
      else r :: insert_by_date e rows'
  end.

Fixpoint sort_values_by_date (rows : DataFrame) : DataFrame :=
  match rows with
  | [] => []
  | e :: rows' => insert_by_date e (sort_values_by_date rows')
  end.

Definition has_license (tl : Z) (e : CollectionEvent) : bool :=
  match Trade_License_Number e with
  | Some t => t =? tl
  | None => false
  end.

(** [series.mean()]: NaN entries are skipped; NaN when nothing is left. *)
Definition series_mean (xs : list (option Q)) : option Q := np_mean_nan (dropna xs).

Definition round1_nan (x : option Q) : option Q := option_map round1 x.

(** ** Interval estimation *)

Definition in_range (interval : Z) : bool := (1 <=? interval) && (interval <=? 120).

(** The loop [for i in range(1, len(entity_data))] over consecutive rows. *)
Fixpoint valid_intervals (dates : list Timestamp) : list Z :=
  match dates with
  | [] => []
  | prev :: rest =>
      match rest with
      | [] => []
      | cur :: _ =>
          let interval := days (cur - prev)%Q in
          if in_range interval then interval :: valid_intervals rest
          else valid_intervals rest
      end
  end.

(** ** Entity patterns *)

Record EntityPattern : Type := {
  trade_license : Z;
  entity_id : string;
  outlet_name : string;
  category : string;
  area : string;
  zone : string;
  collections_count : nat;
  avg_interval_days : Q;
  last_collection_date : Z;
  days_since_last : Z;
  days_overdue : Z;
  risk_level : RiskLevel;
  avg_gallons : option Q
}.

(** [last_collection + timedelta(days=avg_interval)] *)
Definition expected_next (last_collection : Timestamp) (avg_interval : Q) : Timestamp :=
  (last_collection + timedelta avg_interval)%Q.

(** Body of the loop over trade licences: [None] when nothing is appended. *)
Definition entity_pattern (tl : Z) (entity_data : DataFrame) : option EntityPattern :=
  if (2 <=? length entity_data)%nat then
    let intervals := valid_intervals (map Collected_Date entity_data) in
    match intervals, rev entity_data with
    | _ :: _, last_row :: _ =>
        let avg_interval := np_mean intervals in
        let last_collection := Collected_Date last_row in
        let days_since_last := days (reference_date - last_collection)%Q in
        let next := expected_next last_collection avg_interval in
        let days_overdue := days (reference_date - next)%Q in
        Some {| trade_license := tl;
                entity_id := New_E_ID last_row;
                outlet_name := Entity_Mapping_Outlet last_row;
                category := Category last_row;
                area := Area last_row;
                zone := Zone last_row;
                collections_count := length entity_data;
                avg_interval_days := round1 avg_interval;
                last_collection_date := strftime_ymd last_collection;
                days_since_last := days_since_last;
                days_overdue := Z.max 0 days_overdue;
                risk_level := get_risk_level days_overdue;
                avg_gallons :=
                  round1_nan (series_mean (map Sum_of_Gallons_Collected entity_data)) |}
    | _, _ => None
    end
  else None.

Definition entity_data_of (df : DataFrame) (tl : Z) : DataFrame :=
  sort_values_by_date (filter (has_license tl) df).

Definition licenses (df : DataFrame) : list Z :=
  unique Z.eqb (dropna (map Trade_License_Number df)).

Fixpoint collect {A B : Type} (f : A -> option B) (xs : list A) : list B :=
  match xs with
  | [] => []
  | x :: xs' =>
      match f x with
      | Some y => y :: collect f xs'
      | None => collect f xs'
      end
  end.

Definition entity_patterns_of (df : DataFrame) : list EntityPattern :=
  collect (fun tl => entity_pattern tl (entity_data_of df tl)) (licenses df).

(** ** Category and area patterns *)

Definition has_entity (id : string) (e : CollectionEvent) : bool :=
  String.eqb (New_E_ID e) id.

(** The gaps one entity of the group contributes. *)
Definition group_entity_intervals (group_data : DataFrame) (id : string) : list Z :=
  let entity_data := sort_values_by_date (filter (has_entity id) group_data) in
  if (2 <=? length entity_data)%nat
  then valid_intervals (map Collected_Date entity_data)
  else [].

Definition calculate_category_intervals (category_data : DataFrame) : list Z :=
  flat_map (group_entity_intervals category_data)
           (unique String.eqb (map New_E_ID category_data)).

Definition calculate_area_intervals (area_data : DataFrame) : list Z :=
  flat_map (group_entity_intervals area_data)
           (unique String.eqb (map New_E_ID area_data)).

(** [round(np.mean(intervals), 1) if intervals else 14] *)
Definition mean_or_14 (intervals : list Z) : Q :=
  match intervals with
  | [] => 14%Q
  | _ :: _ => round1 (np_mean intervals)
  end.

Module Cat.
Record t : Type := {
  avg_interval_days : Q;
  collections : nat;
  avg_gallons : option Q
}.
End Cat.

Module Geo.
Record t : Type := {
  avg_interval_days : Q;
  collections : nat;
  avg_gallons : option Q;
  unique_entities : nat
}.
End Geo.

Definition in_category (c : string) (e : CollectionEvent) : bool := String.eqb (Category e) c.
Definition in_area (a : string) (e : CollectionEvent) : bool := String.eqb (Area e) a.

Definition category_pattern (df : DataFrame) (c : string) : Cat.t :=
  let category_data := filter (in_category c) df in
  let intervals := calculate_category_intervals category_data in
  {| Cat.avg_interval_days := mean_or_14 intervals;
     Cat.collections := length category_data;
     Cat.avg_gallons :=
       round1_nan (series_mean (map Sum_of_Gallons_Collected category_data)) |}.

Definition geographic_pattern (df : DataFrame) (a : string) : Geo.t :=
  let area_data := filter (in_area a) df in
  let intervals := calculate_area_intervals area_data in
  {| Geo.avg_interval_days := mean_or_14 intervals;
     Geo.collections := length area_data;
     Geo.avg_gallons :=
       round1_nan (series_mean (map Sum_of_Gallons_Collected area_data));
     Geo.unique_entities := length (unique String.eqb (map New_E_ID area_data)) |}.

Record Patterns : Type := {
  entities : list EntityPattern;
  categories : list (string * Cat.t);
  geographic : list (string * Geo.t)
}.

Definition calculate_collection_patterns (df : DataFrame) : Patterns :=
  {| entities := entity_patterns_of df;
     categories :=
       map (fun c => (c, category_pattern df c)) (unique String.eqb (map Category df));
     geographic :=
       map (fun a => (a, geographic_pattern df a)) (unique String.eqb (map Area df)) |}.

(** ** Exceptions *)

Inductive exn : Type := ZeroDivisionError | ValueError | IndexError.

Inductive result (A : Type) : Type :=
| Ok (a : A)
| Raise (e : exn).
Arguments Ok {A} a.
Arguments Raise {A} e.

Definition bind {A B : Type} (m : result A) (k : A -> result B) : result B :=
  match m with
  | Ok a => k a
  | Raise e => Raise e
  end.

Notation "x <- m ;; k" := (bind m (fun x => k))
  (at level 61, m at next level, right associativity).

(** [a / b] on Python integers. *)
Definition py_div (a b : Z) : result Q :=
  if b =? 0 then Raise ZeroDivisionError
  else Ok (inject_Z a / inject_Z b)%Q.

(** [int(x)] on a float: truncation towards zero, [ValueError] on NaN. *)
Definition Qtrunc (x : Q) : Z := if Qle_bool 0 x then Qfloor x else Qceiling x.

Definition py_int (x : option Q) : result Z :=
  match x with
  | Some q => Ok (Qtrunc q)
  | None => Raise ValueError
  end.

(** [sorted(xs, key=key, reverse=True)]: stable, largest key first. *)
Section SortedDesc.
Context {A : Type} (key : A -> nat).

Fixpoint insert_desc (x : A) (xs : list A) : list A :=
  match xs with
  | [] => [x]
  | y :: ys =>
      if (key y <=? key x)%nat then x :: y :: ys
      else y :: insert_desc x ys
  end.

Fixpoint sorted_desc (xs : list A) : list A :=
  match xs with
  | [] => []
  | x :: xs' => insert_desc x (sorted_desc xs')
  end.
End SortedDesc.

(** ** Delays and alerts *)

Definition has_risk (r : RiskLevel) (e : EntityPattern) : bool :=
  risk_eqb (risk_level e) r.

Definition count_risk (r : RiskLevel) (ps : list EntityPattern) : nat :=
  length (filter (has_risk r) ps).

(** A [dict] from risk tier to count, in insertion order. *)
Definition RiskCounts : Type := list (RiskLevel * nat).

Fixpoint risk_count (d : RiskCounts) (r : RiskLevel) : nat :=
  match d with
  | [] => 0%nat
  | (k, n) :: d' => if risk_eqb k r then n else risk_count d' r
  end.

Definition sum_counts (d : RiskCounts) : nat := list_sum (map snd d).

Definition risk_summary_of (entity_patterns : list EntityPattern) : RiskCounts :=
  [ (critical, count_risk critical entity_patterns);
    (warning, count_risk warning entity_patterns);
    (upcoming, count_risk upcoming entity_patterns);
    (normal, count_risk normal entity_patterns) ].

Module Alert.
Record t : Type := {
  entity_id : string;
  outlet_name : string;
  category : string;
  area : string;
  days_overdue : Z;
  last_collection : Z;
  expected_interval : Q
}.
End Alert.

Definition alert_of (alert : EntityPattern) : Alert.t :=
  {| Alert.entity_id := entity_id alert;
     Alert.outlet_name := outlet_name alert;
     Alert.category := category alert;
     Alert.area := area alert;
     Alert.days_overdue := days_overdue alert;
     Alert.last_collection := last_collection_date alert;
     Alert.expected_interval := avg_interval_days alert |}.

Definition critical_alerts_of (entity_patterns : list EntityPattern) : list Alert.t :=
  let critical_alerts := filter (has_risk critical) entity_patterns in
  map alert_of (firstn 20 critical_alerts).

(** The [defaultdict] counters of the area-wise and category-wise loops. *)
Record DelayCount : Type := {
  dc_critical : nat;
  dc_warning : nat;
  dc_total : nat
}.

Definition dc_zero : DelayCount := {| dc_critical := 0; dc_warning := 0; dc_total := 0 |}.

Definition dc_step (r : RiskLevel) (c : DelayCount) : DelayCount :=
  match r with
  | critical =>
      {| dc_critical := S (dc_critical c); dc_warning := dc_warning c; dc_total := S (dc_total c) |}
  | warning =>
      {| dc_critical := dc_critical c; dc_warning := S (dc_warning c); dc_total := S (dc_total c) |}
  | _ =>
      {| dc_critical := dc_critical c; dc_warning := dc_warning c; dc_total := S (dc_total c) |}
  end.

Fixpoint dc_update (k : string) (r : RiskLevel) (d : list (string * DelayCount))
  : list (string * DelayCount) :=
  match d with
  | [] => [(k, dc_step r dc_zero)]
  | (k', c) :: d' =>
      if String.eqb k' k then (k', dc_step r c) :: d'
      else (k', c) :: dc_update k r d'
  end.

Definition delays_by (key : EntityPattern -> string) (entity_patterns : list EntityPattern)
  : list (string * DelayCount) :=
  fold_left (fun d entity => dc_update (key entity) (risk_level entity) d) entity_patterns [].

Definition high_risk (n : nat) (d : list (string * DelayCount)) : list string :=
  firstn n (map fst (sorted_desc (fun kc => dc_critical (snd kc)) d)).

Module Delays.
Record t : Type := {
  risk_summary : RiskCounts;
  critical_alerts : list Alert.t;
  by_area : list (string * DelayCount);
  by_category : list (string * DelayCount);
  high_risk_areas : list string;
  high_risk_categories : list string;
  total_entities_analyzed : nat;
  entities_with_delays : nat;
  delay_rate : Q;               (* the percentage, before [:.1f] formatting *)
  avg_overdue_days : option Q
}.
End Delays.

Definition generate_delays_analysis (patterns : Patterns) : result Delays.t :=
  let entity_patterns := entities patterns in
  let risk_summary := risk_summary_of entity_patterns in
  let critical_alerts_summary := critical_alerts_of entity_patterns in
  let area_delays := delays_by area entity_patterns in
  let category_delays := delays_by category entity_patterns in
  let delayed := (risk_count risk_summary critical + risk_count risk_summary warning)%nat in
  rate <- py_div (Z.of_nat delayed) (Z.of_nat (length entity_patterns)) ;;
  Ok {| Delays.risk_summary := risk_summary;
        Delays.critical_alerts := critical_alerts_summary;
        Delays.by_area := area_delays;
        Delays.by_category := category_delays;
        Delays.high_risk_areas := high_risk 10 area_delays;
        Delays.high_risk_categories := high_risk 5 category_delays;
        Delays.total_entities_analyzed := length entity_patterns;
        Delays.entities_with_delays := delayed;
        Delays.delay_rate := (rate * 100)%Q;
        Delays.avg_overdue_days :=
          round1_nan
            (np_mean_nan
               (map (fun e => inject_Z (days_overdue e))
                    (filter (fun e => 0 <? days_overdue e) entity_patterns))) |}.

(** ** Entity intelligence

    Of [generate_entity_intelligence] the entries computed from the entity
    patterns are modelled: [category_behavior_patterns] (without
    [std_gallons], a square root) and [intelligence_summary]. *)

Definition series_min (xs : list (option Q)) : option Q :=
  match dropna xs with
  | [] => None
  | x :: rest => Some (fold_left Qmin rest x)
  end.

Definition series_max (xs : list (option Q)) : option Q :=
  match dropna xs with
  | [] => None
  | x :: rest => Some (fold_left Qmax rest x)
  end.

Fixpoint mapM {A B : Type} (f : A -> result B) (xs : list A) : result (list B) :=
  match xs with
  | [] => Ok []
  | x :: xs' =>
      y <- f x ;;
      ys <- mapM f xs' ;;
      Ok (y :: ys)
  end.

Module Behavior.
Record t : Type := {
  total_entities : nat;
  avg_collection_interval : option Q;
  risk_distribution : RiskCounts;
  min_gallons : Z;
  max_gallons : Z;
  avg_gallons : option Q
}.
End Behavior.

Definition category_behavior (df : DataFrame) (entity_patterns : list EntityPattern)
    (c : string) : result (string * Behavior.t) :=
  let cat_data := filter (in_category c) df in
  let cat_entities := filter (fun e => String.eqb (category e) c) entity_patterns in
  let volumes := map Sum_of_Gallons_Collected cat_data in
  lo <- py_int (series_min volumes) ;;
  hi <- py_int (series_max volumes) ;;
  Ok (c, {| Behavior.total_entities := length cat_entities;
            Behavior.avg_collection_interval :=
              round1_nan (np_mean_nan (map avg_interval_days cat_entities));
            Behavior.risk_distribution :=
              [ (critical, count_risk critical cat_entities);
                (warning, count_risk warning cat_entities);
                (normal, count_risk normal cat_entities) ];
            Behavior.min_gallons := lo;
            Behavior.max_gallons := hi;
            Behavior.avg_gallons := round1_nan (series_mean volumes) |}).

Module Intel.
Record t : Type := {
  category_behavior_patterns : list (string * Behavior.t);
  total_entities_analyzed : nat;
  high_risk_entities : nat;
  entities_needing_attention : nat;
  avg_collection_frequency : option Q
}.
End Intel.

Definition generate_entity_intelligence (df : DataFrame) (patterns : Patterns)
  : result Intel.t :=
  let entity_patterns := entities patterns in
  category_behaviors <-
    mapM (category_behavior df entity_patterns) (unique String.eqb (map Category df)) ;;
  Ok {| Intel.category_behavior_patterns := category_behaviors;
        Intel.total_entities_analyzed := length entity_patterns;
        Intel.high_risk_entities :=
          length (filter (fun e => has_risk critical e || has_risk warning e) entity_patterns);
        Intel.entities_needing_attention :=
          length (filter (fun e => 5 <? days_overdue e) entity_patterns);
        Intel.avg_collection_frequency :=
          round1_nan (np_mean_nan (map avg_interval_days entity_patterns)) |}.

(** ** Predictive patterns

    Of [generate_predictive_patterns] the entries computed from the entity
    patterns are modelled: [risk_escalation], [provider_workload_forecast]
    and [capacity_planning]. The weekly and monthly frame statistics, which
    the source evaluates first and which fail with IndexError on a frame
    without rows, are not: a result of the model stands for a result of the
    source only when the source returns. *)

Module Workload.
Record t : Type := {
  upcoming_week_estimate : nat;
  overdue_collections : nat;
  total_managed_entities : nat;
  avg_entity_interval : Q
}.
End Workload.

Definition provider_workload (df : DataFrame) (entity_patterns : list EntityPattern)
    (provider : string) : string * Workload.t :=
  let provider_data := filter (fun e => String.eqb (Service_Provider e) provider) df in
  let ids := map New_E_ID provider_data in
  let provider_entities :=
    filter (fun e => existsb (String.eqb (entity_id e)) ids) entity_patterns in
  (provider,
   {| Workload.upcoming_week_estimate :=
        length (filter (fun e => (-7 <? days_overdue e) && (days_overdue e <=? 0))
                       provider_entities);
      Workload.overdue_collections :=
        length (filter (fun e => 0 <? days_overdue e) provider_entities);
      Workload.total_managed_entities := length provider_entities;
      Workload.avg_entity_interval :=
        match np_mean_nan (map avg_interval_days provider_entities) with
        | Some m => round1 m
        | None => 14%Q
        end |}).

(** [range(1, 31)] *)
Definition horizon : list Z := map Z.of_nat (seq 1 30).

Definition future_date (i : Z) : Timestamp :=
  (to_datetime reference_day + timedelta (inject_Z i))%Q.

(** The test of the inner loop of the capacity forecast. *)
Definition due_near (day : Timestamp) (entity : EntityPattern) : bool :=
  let last_collection := to_datetime (last_collection_date entity) in
  let next_expected := (last_collection + timedelta (avg_interval_days entity))%Q in
  Z.abs (days (day - next_expected)%Q) <=? 1.

Definition collections_needed (entity_patterns : list EntityPattern) (i : Z) : nat :=
  length (filter (due_near (future_date i)) entity_patterns).

Definition daily_capacity_needed (entity_patterns : list EntityPattern) : list (Z * nat) :=
  map (fun i => (strftime_ymd (future_date i), collections_needed entity_patterns i)) horizon.

Module Hotspot.
Record t : Type := {
  area : string;
  category : string;
  days_overdue : Z;
  outlet : string
}.
End Hotspot.

Definition hotspot_of (entity : EntityPattern) : Hotspot.t :=
  {| Hotspot.area := area entity;
     Hotspot.category := category entity;
     Hotspot.days_overdue := days_overdue entity;
     Hotspot.outlet := outlet_name entity |}.

Module Predictive.
Record t : Type := {
  critical_hotspots : list Hotspot.t;
  warning_trends : nat;
  escalation_rate : Q;          (* the percentage, before [:.1f] formatting *)
  provider_workload_forecast : list (string * Workload.t);
  next_30_days_forecast : list (Z * nat);
  peak_demand_days : list (Z * nat)
}.
End Predictive.

Definition generate_predictive_patterns (df : DataFrame) (patterns : Patterns)
  : result Predictive.t :=
  let entity_patterns := entities patterns in
  let critical_entities := filter (has_risk critical) entity_patterns in
  let warning_entities := filter (has_risk warning) entity_patterns in
  let provider_workloads :=
    map (provider_workload df entity_patterns)
        (unique String.eqb (map Service_Provider df)) in
  let capacity := daily_capacity_needed entity_patterns in
  rate <- py_div (Z.of_nat (length critical_entities))
                 (Z.of_nat (length entity_patterns)) ;;
  Ok {| Predictive.critical_hotspots := map hotspot_of (firstn 20 critical_entities);
        Predictive.warning_trends := length warning_entities;
        Predictive.escalation_rate := (rate * 100)%Q;
        Predictive.provider_workload_forecast := provider_workloads;
        Predictive.next_30_days_forecast := capacity;
        Predictive.peak_demand_days := firstn 10 (sorted_desc snd capacity) |}.

(** ** The insights document

    Of [generate_pie_insights] the three entries computed from the entity
    patterns are modelled; the frame statistics computed before them
    (overall, geographical, category, volume, provider, operational) are
    not. *)

Module Insights.
Record t : Type := {
  delays_alerts_analysis : Delays.t;
  entity_intelligence : Intel.t;
  predictive_patterns : Predictive.t
}.
End Insights.

Definition generate_pie_insights (df : DataFrame) (patterns : Patterns)
  : result Insights.t :=
  delays <- generate_delays_analysis patterns ;;
  intel <- generate_entity_intelligence df patterns ;;
  predictive <- generate_predictive_patterns df patterns ;;
  Ok {| Insights.delays_alerts_analysis := delays;
        Insights.entity_intelligence := intel;
        Insights.predictive_patterns := predictive |}.

(** ** The environment of a run: the clock and the loaded Q1 rows *)

Record datetime : Type := {
  year : nat;
  month : nat;
  day : nat;
  hour : nat;
  minute : nat;
  second : nat
}.

Record World : Type := {
  clock : datetime;             (* what [datetime.now()] returns *)
  csv_rows : DataFrame          (* what the Q1 loader returns *)
}.

(** [main] of [generate_pie_insights.py], up to the JSON dump. *)
Definition pie_main (w : World) : result Insights.t :=
  let df := csv_rows w in
  let patterns := calculate_collection_patterns df in
  generate_pie_insights df patterns.

(** ** The markdown report of [data_analysis.py] *)

Definition decimal (n : nat) : string := NilZero.string_of_uint (Nat.to_uint n).

Definition pad2 (n : nat) : string :=
  if (n <? 10)%nat then ("0" ++ decimal n)%string else decimal n.

Definition pad4 (n : nat) : string :=
  if (n <? 10)%nat then ("000" ++ decimal n)%string
  else if (n <? 100)%nat then ("00" ++ decimal n)%string
  else if (n <? 1000)%nat then ("0" ++ decimal n)%string
  else decimal n.

(** [now.strftime('%Y-%m-%d %H:%M:%S')] *)
Definition strftime (now : datetime) : string :=
  (pad4 (year now) ++ "-" ++ pad2 (month now) ++ "-" ++ pad2 (day now) ++ " "
   ++ pad2 (hour now) ++ ":" ++ pad2 (minute now) ++ ":" ++ pad2 (second now))%string.

Fixpoint group3 (rev_digits : list ascii) : list ascii :=
  match rev_digits with
  | a :: b :: c :: ((_ :: _) as rest) => a :: b :: c :: ","%char :: group3 rest
  | _ => rev_digits
  end.

(** The format [{n:,}] *)
Definition thousands (n : nat) : string :=
  string_of_list_ascii (rev (group3 (rev (list_ascii_of_string (decimal n))))).

Record AllStats : Type := {
  total_records : nat
}.

Definition footer (now : datetime) (all_stats : AllStats) : string :=
  ("*Report generated on " ++ strftime now
   ++ " based on comprehensive analysis of " ++ thousands (total_records all_stats)
   ++ " waste collection service records.*")%string.

Section Report.
(** The sections of the template above the footer; they read the
    statistics only. *)
Variable sections : AllStats -> string.

Definition generate_markdown_report (now : datetime) (all_stats : AllStats) : string :=
  (sections all_stats ++ footer now all_stats)%string.

Definition data_analysis_main (w : World) : string :=
  let df := csv_rows w in
  let all_stats := {| total_records := length df |} in
  generate_markdown_report (clock w) all_stats.
End Report.

(** ** Loading the first quarter

    A CSV row after the coercions of the loader: [pd.to_datetime] and
    [pd.to_numeric] with [errors='coerce'] leave [None] (NaT, NaN) where the
    text does not parse. *)

Record CsvRow : Type := {
  csv_Trade_License_Number : option Z;
  csv_New_E_ID : string;
  csv_Entity_Mapping_Outlet : string;
  csv_Category : string;
  csv_Area : string;
  csv_Zone : string;
  csv_Service_Provider : string;
  csv_Collected_Date : option Timestamp;
  csv_Sum_of_Gallons_Collected : option Q
}.

(** [pd.to_datetime('2023-01-01')] and [pd.to_datetime('2023-03-31')], both
    at midnight. *)
Definition q1_2023_start : Timestamp := inject_Z 19358.
Definition q1_2023_end : Timestamp := inject_Z 19447.

(** The mask [(date >= q1_2023_start) & (date <= q1_2023_end)]; a comparison
    with NaT is false. *)
Definition in_q1_2023 (date : option Timestamp) : bool :=
  match date with
  | Some t => Qle_bool q1_2023_start t && Qle_bool t q1_2023_end
  | None => false
  end.

Definition event_of_row (r : CsvRow) (t : Timestamp) : CollectionEvent :=
  {| Trade_License_Number := csv_Trade_License_Number r;
     New_E_ID := csv_New_E_ID r;
     Entity_Mapping_Outlet := csv_Entity_Mapping_Outlet r;
     Category := csv_Category r;
     Area := csv_Area r;
     Zone := csv_Zone r;
     Service_Provider := csv_Service_Provider r;
     Collected_Date := t;
     Sum_of_Gallons_Collected := csv_Sum_of_Gallons_Collected r |}.

Definition load_q1_2023_data (rows : list CsvRow) : DataFrame :=
  collect (fun r =>
             match csv_Collected_Date r with
             | Some t => if in_q1_2023 (Some t) then Some (event_of_row r t) else None
             | None => None
             end)
          rows.

(** ** Volume distribution

    Of [generate_volume_analysis] the [volume_distribution] and the minimum,
    maximum and mean of [volume_statistics] are modelled; the median, the
    standard deviation, the quartiles and the value counts are not. *)

Definition Qlt_bool (x y : Q) : bool := negb (Qle_bool y x).

(** [round(x, 2)] *)
Definition round2 (x : Q) : Q := (inject_Z (rint (x * 100)) / 100)%Q.

(** A row of [volume_ranges]; [None] is [float('inf')]. *)
Definition VolumeRange : Type := (Q * option Q * string)%type.

Definition volume_ranges : list VolumeRange :=
  [ (0%Q, Some 15%Q, "0-15"%string);
    (16%Q, Some 25%Q, "16-25"%string);
    (26%Q, Some 50%Q, "26-50"%string);
    (51%Q, Some 100%Q, "51-100"%string);
    (101%Q, Some 200%Q, "101-200"%string);
    (201%Q, Some 500%Q, "201-500"%string);
    (501%Q, None, "500+"%string) ].

(** [(gallons >= min_val) & (gallons < max_val if max_val != float('inf')
    else gallons >= min_val)] *)
Definition volume_mask (min_val : Q) (max_val : option Q) (g : Q) : bool :=
  Qle_bool min_val g
  && match max_val with
     | Some m => Qlt_bool g m
     | None => Qle_bool min_val g
     end.

Module Bucket.
Record t : Type := {
  count : nat;
  percentage : option Q;        (* [None]: NaN, no volume at all *)
  total_gallons : Z;
  avg_gallons : Q
}.
End Bucket.

Definition volume_bucket (gallons : list Q) (range : VolumeRange) : string * Bucket.t :=
  let '(min_val, max_val, label) := range in
  let selected := filter (volume_mask min_val max_val) gallons in
  let count := length selected in
  (label,
   {| Bucket.count := count;
      Bucket.percentage :=
        match gallons with
        | [] => None
        | _ :: _ =>
            Some (round2 (inject_Z (Z.of_nat count)
                          / inject_Z (Z.of_nat (length gallons)) * 100))%Q
        end;
      Bucket.total_gallons := Qtrunc (sumQ selected);
      Bucket.avg_gallons :=
        match np_mean_nan selected with
        | Some m => round1 m
        | None => 0%Q
        end |}).

Module Volume.
Record t : Type := {
  volume_distribution : list (string * Bucket.t);
  min_gallons : Z;
  max_gallons : Z;
  mean_gallons : option Q
}.
End Volume.

Definition generate_volume_analysis (df : DataFrame) : result Volume.t :=
  let volumes := map Sum_of_Gallons_Collected df in
  let gallons := dropna volumes in
  let distribution := map (volume_bucket gallons) volume_ranges in
  lo <- py_int (series_min volumes) ;;
  hi <- py_int (series_max volumes) ;;
  Ok {| Volume.volume_distribution := distribution;
        Volume.min_gallons := lo;
        Volume.max_gallons := hi;
        Volume.mean_gallons := round1_nan (series_mean volumes) |}.

(** The ranges of [analyze_volume_patterns] in [data_analysis.py], whose
    mask is [(gallons >= min_val) & (gallons < max_val)] throughout. *)
Definition eda_volume_ranges : list VolumeRange :=
  [ (0%Q, Some 10%Q, "0-10"%string);
    (11%Q, Some 25%Q, "11-25"%string);
    (26%Q, Some 50%Q, "26-50"%string);
    (51%Q, Some 100%Q, "51-100"%string);
    (101%Q, Some 200%Q, "101-200"%string);
    (201%Q, Some 500%Q, "201-500"%string);
    (501%Q, None, "500+"%string) ].

Definition eda_volume_mask (min_val : Q) (max_val : option Q) (g : Q) : bool :=
  Qle_bool min_val g
  && match max_val with
     | Some m => Qlt_bool g m
     | None => true
     end.

(** The [count] entries of the [distribution] of [analyze_volume_patterns]. *)
Definition eda_volume_counts (gallons : list Q) : list (string * nat) :=
  map (fun range : VolumeRange =>
         let '(min_val, max_val, label) := range in
         (label, length (filter (eda_volume_mask min_val max_val) gallons)))
      eda_volume_ranges.

(** [d[k]] on the counters of the delay analysis, [None] for a missing key. *)
Fixpoint dc_lookup (k : string) (d : list (string * DelayCount)) : option DelayCount :=
  match d with
  | [] => None
  | (k', c) :: d' => if String.eqb k' k then Some c else dc_lookup k d'
  end.

(** * Notions used in the statements *)

(** All consecutive gaps in whole days, kept or not. *)
Fixpoint gaps (dates : list Timestamp) : list Z :=
  match dates with
  | [] => []
  | prev :: rest =>
      match rest with
      | [] => []
      | cur :: _ => days (cur - prev)%Q :: gaps rest
      end
  end.

(** The overdue count before clamping, as the loop body computes it. *)
Definition raw_days_overdue (entity_data : DataFrame) (last_row : CollectionEvent) : Z :=
  days (reference_date
        - expected_next (Collected_Date last_row)
            (np_mean (valid_intervals (map Collected_Date entity_data))))%Q.

(** ** Sample data *)

Definition sample_event (tl : option Z) (id : string) (day : Z) : CollectionEvent :=
  {| Trade_License_Number := tl;
     New_E_ID := id;
     Entity_Mapping_Outlet := "Outlet";
     Category := "Restaurant";
     Area := "Al Quoz";
     Zone := "Zone 1";
     Service_Provider := "Provider 4";
     Collected_Date := inject_Z day;
     Sum_of_Gallons_Collected := Some 25%Q |}.

(** One licence, collections on 2023-03-01 and 2023-03-31. *)
Definition df_monthly : DataFrame :=
  [ sample_event (Some 1) "E1" 19417; sample_event (Some 1) "E1" 19447 ].

(** The event with its trade-licence field blanked. *)
Definition erase_license (e : CollectionEvent) : CollectionEvent :=
  {| Trade_License_Number := None;
     New_E_ID := New_E_ID e;
     Entity_Mapping_Outlet := Entity_Mapping_Outlet e;
     Category := Category e;
     Area := Area e;
     Zone := Zone e;
     Service_Provider := Service_Provider e;
     Collected_Date := Collected_Date e;
     Sum_of_Gallons_Collected := Sum_of_Gallons_Collected e |}.

Definition licensed (e : CollectionEvent) : bool :=
  match Trade_License_Number e with
  | Some _ => true
  | None => false
  end.

(** Entity E1, collections on 2023-03-11 and 2023-03-21, licence kept. *)
Definition df_kept : DataFrame :=
  [ sample_event (Some 1) "E1" 19427; sample_event (Some 1) "E1" 19437 ].

(** The same two collections, the licence renewed in between. *)
Definition df_renewed : DataFrame :=
  [ sample_event (Some 1) "E1" 19427; sample_event (Some 2) "E1" 19437 ].

(** The same two collections, the licence field not numeric. *)
Definition df_unlicensed : DataFrame :=
  [ sample_event None "E1" 19427; sample_event None "E1" 19437 ].

(** The pattern of [df_monthly]. *)
Definition pattern_monthly : EntityPattern :=
  {| trade_license := 1;
     entity_id := "E1";
     outlet_name := "Outlet";
     category := "Restaurant";
     area := "Al Quoz";
     zone := "Zone 1";
     collections_count := 2;
     avg_interval_days := 300 # 10;
     last_collection_date := 19447;
     days_since_last := 10;
     days_overdue := 0;
     risk_level := normal;
     avg_gallons := Some (250 # 10) |}.

(** The order the specification asks of the alert list, on its first key:
    days_overdue never increases along the list. *)
Fixpoint overdue_descending (alerts : list Alert.t) : bool :=
  match alerts with
  | [] => true
  | a :: rest =>
      match rest with
      | [] => true
      | b :: _ => (Alert.days_overdue b <=? Alert.days_overdue a) && overdue_descending rest
      end
  end.

(** Licence 1 is 11 days overdue on the reference date, licence 2 is 20. *)
Definition df_two_critical : DataFrame :=
  [ sample_event (Some 1) "E1" 19426; sample_event (Some 1) "E1" 19436;
    sample_event (Some 2) "E2" 19417; sample_event (Some 2) "E2" 19427 ].

(** One licence, one day overdue on the reference date. *)
Definition df_upcoming : DataFrame :=
  [ sample_event (Some 1) "E1" 19436; sample_event (Some 1) "E1" 19446 ].

(** The group average as the specification words it: the unweighted mean,
    over the member entities of the group, of each member's own mean
    interval, a member without a valid gap counting as 14; 14 for a group
    without members. *)
Definition member_interval_or_default (group_data : DataFrame) (id : string) : Q :=
  match group_entity_intervals group_data id with
  | [] => 14%Q
  | _ :: _ => np_mean (group_entity_intervals group_data id)
  end.

Definition spec_group_avg_interval (group_data : DataFrame) : Q :=
  let ids := unique String.eqb (map New_E_ID group_data) in
  match ids with
  | [] => 14%Q
  | _ :: _ =>
      (sumQ (map (member_interval_or_default group_data) ids)
       / inject_Z (Z.of_nat (length ids)))%Q
  end.

(** The mean of all gaps of a group, each entity weighing as many times as
    it has kept gaps; 14 when no gap is kept. *)
Definition pooled_gap_mean (per_entity : list (list Z)) : Q :=
  let n := list_sum (map (@length Z) per_entity) in
  let s := sumZ (map sumZ per_entity) in
  if (n =? 0)%nat then 14%Q
  else round1 (inject_Z s / inject_Z (Z.of_nat n))%Q.

Definition per_entity_intervals (group_data : DataFrame) : list (list Z) :=
  map (group_entity_intervals group_data) (unique String.eqb (map New_E_ID group_data)).

(** E1 has one gap of 10 days, E2 two gaps of 20 days. *)
Definition df_mixed : DataFrame :=
  [ sample_event (Some 1) "E1" 19358; sample_event (Some 1) "E1" 19368;
    sample_event (Some 2) "E2" 19358; sample_event (Some 2) "E2" 19378;
    sample_event (Some 2) "E2" 19398 ].

(** E1 has one gap of 10 days, E3 a single collection. *)
Definition df_lonely : DataFrame :=
  [ sample_event (Some 1) "E1" 19358; sample_event (Some 1) "E1" 19368;
    sample_event (Some 3) "E3" 19400 ].

(** The number of forecast days on which an entity is counted. *)
Definition contribution (entity : EntityPattern) : nat :=
  list_sum (map snd (daily_capacity_needed [entity])).

Definition counted (d : Z * nat) : bool := negb (snd d =? 0)%nat.

(** Last collection on the reference date (day 0), interval 10 days. *)
Definition pattern_day0 : EntityPattern :=
  {| trade_license := 1;
     entity_id := "E1";
     outlet_name := "Outlet";
     category := "Restaurant";
     area := "Al Quoz";
     zone := "Zone 1";
     collections_count := 2;
     avg_interval_days := 10;
     last_collection_date := reference_day;
     days_since_last := 0;
     days_overdue := 0;
     risk_level := normal;
     avg_gallons := Some 25%Q |}.

Definition clock_a : datetime :=
  {| year := 2025; month := 1; day := 15; hour := 9; minute := 30; second := 0 |}.

Definition clock_b : datetime :=
  {| year := 2025; month := 1; day := 15; hour := 9; minute := 30; second := 1 |}.

(** Two runs on the same rows, one second apart. *)
Definition world_a : World := {| clock := clock_a; csv_rows := df_monthly |}.
Definition world_b : World := {| clock := clock_b; csv_rows := df_monthly |}.

Definition title_section (_ : AllStats) : string :=
  "# Dubai Waste Collection Data Analysis Report".

(** Ascending order of collection dates. *)
Definition date_le (a b : CollectionEvent) : Prop :=
  (Collected_Date a <= Collected_Date b)%Q.

(** The counters an area or category key should carry: how many of its
    entities are critical, how many warning, how many in all. *)
Definition counter_of (key : EntityPattern -> string) (k : string)
    (ps : list EntityPattern) : DelayCount :=
  let members := filter (fun e => String.eqb (key e) k) ps in
  {| dc_critical := count_risk critical members;
     dc_warning := count_risk warning members;
     dc_total := length members |}.

Definition dc_plus (a b : DelayCount) : DelayCount :=
  {| dc_critical := dc_critical a + dc_critical b;
     dc_warning := dc_warning a + dc_warning b;
     dc_total := dc_total a + dc_total b |}.

Definition dc_default (c : option DelayCount) : DelayCount :=
  match c with
  | Some c' => c'
  | None => dc_zero
  end.

Definition dc_step_of (key : EntityPattern -> string) (d : list (string * DelayCount))
    (entity : EntityPattern) : list (string * DelayCount) :=
  dc_update (key entity) (risk_level entity) d.

(** Largest key first. *)
Definition key_ge {A : Type} (key : A -> nat) (a b : A) : Prop := (key b <= key a)%nat.

(** Whole days from the expected next collection of an entity, as the
    forecast computes it, to the reference date; negative when the
    collection is still to come. *)
Definition days_past_expected (entity : EntityPattern) : Z :=
  days (to_datetime reference_day
        - (to_datetime (last_collection_date entity)
           + timedelta (avg_interval_days entity)))%Q.

Definition critical_count (kc : string * DelayCount) : nat := dc_critical (snd kc).

Definition forecast_count (d : Z * nat) : nat := snd d.

Definition sample_row (date : option Timestamp) : CsvRow :=
  {| csv_Trade_License_Number := Some 1;
     csv_New_E_ID := "E1";
     csv_Entity_Mapping_Outlet := "Outlet";
     csv_Category := "Restaurant";
     csv_Area := "Al Quoz";
     csv_Zone := "Zone 1";
     csv_Service_Provider := "Provider 4";
     csv_Collected_Date := date;
     csv_Sum_of_Gallons_Collected := Some 25%Q |}.

(** Collections on 2022-12-31, 2023-03-01, an unreadable date, 2023-03-31 at
    midnight and 2023-03-31 at noon. *)
Definition csv_sample : list CsvRow :=
  [ sample_row (Some (inject_Z 19357));
    sample_row (Some (inject_Z 19417));
    sample_row None;
    sample_row (Some (inject_Z 19447));
    sample_row (Some (38895 # 2)) ].

Definition in_q1_window (e : CollectionEvent) : Prop :=
  (q1_2023_start <= Collected_Date e <= q1_2023_end)%Q.

(** The volumes that no range of [volume_ranges] takes: negative ones and
    those from an upper bound up to the next lower bound. *)
Definition volume_uncovered (g : Q) : bool :=
  Qlt_bool g 0
  || (Qle_bool 15 g && Qlt_bool g 16)
  || (Qle_bool 25 g && Qlt_bool g 26)
  || (Qle_bool 50 g && Qlt_bool g 51)
  || (Qle_bool 100 g && Qlt_bool g 101)
  || (Qle_bool 200 g && Qlt_bool g 201)
  || (Qle_bool 500 g && Qlt_bool g 501).

(** The same for [eda_volume_ranges]. *)
Definition eda_volume_uncovered (g : Q) : bool :=
  Qlt_bool g 0
  || (Qle_bool 10 g && Qlt_bool g 11)
  || (Qle_bool 25 g && Qlt_bool g 26)
  || (Qle_bool 50 g && Qlt_bool g 51)
  || (Qle_bool 100 g && Qlt_bool g 101)
  || (Qle_bool 200 g && Qlt_bool g 201)
  || (Qle_bool 500 g && Qlt_bool g 501).

Definition bucket_count (lb : string * Bucket.t) : nat := Bucket.count (snd lb).

Definition indicator (b : bool) : nat := if b then 1%nat else 0%nat.

(** ** Intervals, stated without the code's own loop *)

(** A gap counts towards an interval when it is of 1 to 120 days. *)
Definition within_1_120 (g : Z) : bool := (1 <=? g) && (g <=? 120).

(** [sorted] holds the rows of [rows], each once, in ascending date order. *)
Definition sorted_rows_of (rows sorted : DataFrame) : Prop :=
  Permutation sorted rows /\ StronglySorted date_le sorted.

(** [kept] lists, in date order, the gaps of 1 to 120 days between
    consecutive rows of [rows]. *)
Definition kept_gaps_of (rows : DataFrame) (kept : list Z) : Prop :=
  exists sorted,
    sorted_rows_of rows sorted /\
    kept = filter within_1_120 (gaps (map Collected_Date sorted)).

(** [avg] is the mean [s / n] given to one decimal: a whole number of tenths
    at most half a tenth away from the mean. *)
Definition is_mean_to_one_decimal (s : Z) (n : nat) (avg : Q) : Prop :=
  (exists k : Z, avg == inject_Z k / 10)%Q /\
  (Qabs (avg - inject_Z s / inject_Z (Z.of_nat n)) <= 1 # 20)%Q.

(** [avg] is what pooling gives for the rows of a group: with the kept gaps
    of each entity identifier of the group listed apart, their mean over all
    entities together, to one decimal, or 14 when there is no kept gap. *)
Definition pooled_interval_of (group_data : DataFrame) (avg : Q) : Prop :=
  exists (ids : list string) (per_entity : list (list Z)),
    NoDup ids /\
    (forall id, In id ids <-> In id (map New_E_ID group_data)) /\
    Forall2 (fun id kept => kept_gaps_of (filter (has_entity id) group_data) kept)
            ids per_entity /\
    let n := list_sum (map (@length Z) per_entity) in
    let s := sumZ (map sumZ per_entity) in
    if (n =? 0)%nat then avg = 14%Q else is_mean_to_one_decimal s n avg.

(** [a] and [b] are rows of [rows], [a] earlier than [b], with no row dated
    strictly between them. *)
Definition consecutive_collections (rows : DataFrame) (a b : CollectionEvent) : Prop :=
  In a rows /\ In b rows /\
  (Collected_Date a < Collected_Date b)%Q /\
  forall c, In c rows ->
            ~ (Collected_Date a < Collected_Date c /\ Collected_Date c < Collected_Date b)%Q.

(** Some two consecutive collections of [rows] are 1 to 120 whole days
    apart. *)
Definition has_kept_gap (rows : DataFrame) : Prop :=
  exists a b,
    consecutive_collections rows a b /\
    1 <= days (Collected_Date b - Collected_Date a)%Q <= 120.


(** Twenty-two licences, licence k being 10 + k days overdue on the
    reference date: all critical, the last two the most overdue. *)
Definition df_many_critical : DataFrame :=
  flat_map (fun k : Z =>
              [ sample_event (Some k) ("E" ++ decimal (Z.to_nat k)) (19427 - k);
                sample_event (Some k) ("E" ++ decimal (Z.to_nat k)) (19437 - k) ])
           (map Z.of_nat (seq 1 22)).

(** * Properties *)

(** ** Whole days and rounding *)

Lemma Qfloor_shift (a : Z) (q : Q) : Qfloor (inject_Z a + q)%Q = a + Qfloor q.
Proof.
  destruct q as [n d].
  unfold Qfloor, Qplus, inject_Z; simpl.
  rewrite Z.mul_1_r.
  rewrite Z.div_add_l by discriminate.
  reflexivity.
Qed.

Lemma days_of_whole (a b : Z) : days (inject_Z a - inject_Z b)%Q = a - b.
Proof.
  unfold days, Qminus.
  rewrite <- inject_Z_opp, <- inject_Z_plus.
  apply Qfloor_Z.
Qed.

Lemma rint_whole (x : Q) (n : Z) : (x == inject_Z n)%Q -> rint x = n.
Proof.
  intros Hx. unfold rint. cbv zeta.
  assert (Hf : Qfloor x = n) by (rewrite Hx; apply Qfloor_Z).
  rewrite Hf.
  assert (Hlt : (x - inject_Z n < 1 # 2)%Q).
  { rewrite Hx. setoid_replace (inject_Z n - inject_Z n)%Q with 0%Q by ring.
    reflexivity. }
  assert (Hc : ((x - inject_Z n) ?= (1 # 2))%Q = Lt) by (apply Qlt_alt; exact Hlt).
  rewrite Hc. reflexivity.
Qed.



(** ** Lists: [unique], [dropna], [collect], sorting *)

Section UniqueFacts.
Context {A : Type} (eqb : A -> A -> bool).
Hypothesis eqb_eq : forall x y, eqb x y = true <-> x = y.

Lemma existsb_eqb_In (x : A) (seen : list A) : existsb (eqb x) seen = true <-> In x seen.
Proof.
  rewrite existsb_exists. split.
  - intros [y [Hy He]]. apply eqb_eq in He. subst. exact Hy.
  - intros H. exists x. split; [exact H | apply eqb_eq; reflexivity].
Qed.

Lemma unique_from_In (xs seen : list A) (x : A) :
  In x (unique_from eqb seen xs) <-> In x xs /\ ~ In x seen.
Proof.
  revert seen. induction xs as [|y ys IH]; intros seen; simpl.
  - tauto.
  - destruct (existsb (eqb y) seen) eqn:E.
    + apply existsb_eqb_In in E. rewrite IH. split.
      * intros [H1 H2]. auto.
      * intros [[H1|H1] H2]; [subst; contradiction | auto].
    + assert (Hn : ~ In y seen).
      { intros H. apply existsb_eqb_In in H. congruence. }
      simpl. rewrite IH. simpl. split.
      * intros [H|[H1 H2]]; [subst; auto | split; [auto | tauto]].
      * intros [[H1|H1] H2]; [auto|].
        destruct (eqb y x) eqn:Eyx.
        -- apply eqb_eq in Eyx. auto.
        -- right. split; [exact H1|]. intros [H|H]; [|contradiction].
           subst. assert (eqb x x = true) by (apply eqb_eq; reflexivity). congruence.
Qed.

Lemma unique_In (xs : list A) (x : A) : In x (unique eqb xs) <-> In x xs.
Proof. unfold unique. rewrite unique_from_In. simpl. tauto. Qed.

Lemma unique_from_NoDup (xs seen : list A) : NoDup (unique_from eqb seen xs).
Proof.
  revert seen. induction xs as [|y ys IH]; intros seen; simpl.
  - constructor.
  - destruct (existsb (eqb y) seen); [apply IH|].
    constructor; [|apply IH].
    rewrite unique_from_In. simpl. tauto.
Qed.

Lemma unique_NoDup (xs : list A) : NoDup (unique eqb xs).
Proof. apply unique_from_NoDup. Qed.
End UniqueFacts.

Lemma dropna_In {A : Type} (xs : list (option A)) (x : A) : In x (dropna xs) <-> In (Some x) xs.
Proof.
  induction xs as [|[y|] ys IH]; simpl.
  - tauto.
  - rewrite IH. split; intros [H|H]; auto; [left; congruence | left; congruence].
  - rewrite IH. split; [auto | intros [H|H]; [discriminate | auto]].
Qed.

Lemma collect_In {A B : Type} (f : A -> option B) (xs : list A) (y : B) :
  In y (collect f xs) <-> exists x, In x xs /\ f x = Some y.
Proof.
  induction xs as [|x xs IH]; simpl.
  - split; [tauto | intros [x [[] _]]].
  - destruct (f x) eqn:E; simpl; rewrite IH; split.
    + intros [H|[x' [H1 H2]]]; [exists x; subst; auto | exists x'; auto].
    + intros [x' [[H1|H1] H2]]; [subst; left; congruence | right; exists x'; auto].
    + intros [x' [H1 H2]]. exists x'; auto.
    + intros [x' [[H1|H1] H2]]; [subst; congruence | exists x'; auto].
Qed.

Lemma insert_by_date_length (e : CollectionEvent) (rows : DataFrame) :
  length (insert_by_date e rows) = S (length rows).
Proof.
  induction rows as [|r rows IH]; simpl; [reflexivity|].
  destruct (Qle_bool _ _); simpl; [reflexivity | rewrite IH; reflexivity].
Qed.

Lemma sort_values_by_date_length (rows : DataFrame) :
  length (sort_values_by_date rows) = length rows.
Proof.
  induction rows as [|e rows IH]; simpl; [reflexivity|].
  rewrite insert_by_date_length, IH. reflexivity.
Qed.

Lemma insert_by_date_In (e x : CollectionEvent) (rows : DataFrame) :
  In x (insert_by_date e rows) <-> x = e \/ In x rows.
Proof.
  induction rows as [|r rows IH]; simpl.
  - split; intros [H|H]; auto.
  - destruct (Qle_bool _ _); simpl.
    + split; intros [H|H]; auto.
    + rewrite IH. tauto.
Qed.

Lemma sort_values_by_date_In (x : CollectionEvent) (rows : DataFrame) :
  In x (sort_values_by_date rows) <-> In x rows.
Proof.
  induction rows as [|e rows IH]; simpl; [tauto|].
  rewrite insert_by_date_In, IH. split; intros [H|H]; auto.
Qed.

Lemma licenses_In (df : DataFrame) (tl : Z) :
  In tl (licenses df) <-> exists e, In e df /\ Trade_License_Number e = Some tl.
Proof.
  unfold licenses.
  rewrite (unique_In Z.eqb Z.eqb_eq), dropna_In, in_map_iff.
  split; intros [e [H1 H2]]; exists e; auto.
Qed.

Lemma has_license_true (tl : Z) (e : CollectionEvent) :
  has_license tl e = true <-> Trade_License_Number e = Some tl.
Proof.
  unfold has_license. destruct (Trade_License_Number e) as [t|].
  - rewrite Z.eqb_eq. split; congruence.
  - split; discriminate.
Qed.

(** ** Risk tiers (C9) *)

(** C9. The tier function is exactly the stated partition of the integers:
    at most 0 is normal, 1 to 5 is upcoming, 6 to 10 is warning, above 10 is
    critical; the boundary values 0, 1, 5, 6, 10 and 11 land in those tiers. *)
Theorem get_risk_level_tiers :
  forall d : Z,
    (get_risk_level d = normal <-> d <= 0) /\
    (get_risk_level d = upcoming <-> 1 <= d <= 5) /\
    (get_risk_level d = warning <-> 6 <= d <= 10) /\
    (get_risk_level d = critical <-> 10 < d) /\
    get_risk_level 0 = normal /\
    get_risk_level 1 = upcoming /\
    get_risk_level 5 = upcoming /\
    get_risk_level 6 = warning /\
    get_risk_level 10 = warning /\
    get_risk_level 11 = critical.
Proof.
  intros d. unfold get_risk_level.
  destruct (Z.leb_spec d 0); destruct (Z.leb_spec d 5); destruct (Z.leb_spec d 10);
    simpl; repeat split; intros; try discriminate; try lia; try reflexivity.
Qed.

(** ** Entity patterns *)

Lemma valid_intervals_filter (dates : list Timestamp) :
  valid_intervals dates = filter in_range (gaps dates).
Proof.
  induction dates as [|prev rest IH]; [reflexivity|].
  destruct rest as [|cur rest']; [reflexivity|].
  change (valid_intervals (prev :: cur :: rest'))
    with (if in_range (days (cur - prev)%Q)
          then days (cur - prev)%Q :: valid_intervals (cur :: rest')
          else valid_intervals (cur :: rest')).
  change (gaps (prev :: cur :: rest')) with (days (cur - prev)%Q :: gaps (cur :: rest')).
  cbn [filter]. rewrite IH. reflexivity.
Qed.

Lemma valid_intervals_in_range (dates : list Timestamp) :
  Forall (fun g => 1 <= g <= 120) (valid_intervals dates).
Proof.
  rewrite valid_intervals_filter. apply Forall_forall. intros g Hg.
  apply filter_In in Hg. destruct Hg as [_ Hg].
  unfold in_range in Hg. apply andb_prop in Hg. destruct Hg as [H1 H2].
  apply Z.leb_le in H1, H2. lia.
Qed.

Lemma entity_pattern_Some (tl : Z) (entity_data : DataFrame) (p : EntityPattern) :
  entity_pattern tl entity_data = Some p ->
  exists before last_row,
    entity_data = before ++ [last_row] /\
    valid_intervals (map Collected_Date entity_data) <> [] /\
    trade_license p = tl /\
    collections_count p = length entity_data /\
    avg_interval_days p = round1 (np_mean (valid_intervals (map Collected_Date entity_data))) /\
    last_collection_date p = strftime_ymd (Collected_Date last_row) /\
    days_overdue p = Z.max 0 (raw_days_overdue entity_data last_row) /\
    risk_level p = get_risk_level (raw_days_overdue entity_data last_row).
Proof.
  unfold entity_pattern, raw_days_overdue.
  destruct (2 <=? length entity_data)%nat; [|discriminate].
  destruct (valid_intervals (map Collected_Date entity_data)) as [|g gs] eqn:Ev;
    [discriminate|].
  destruct (rev entity_data) as [|last_row before] eqn:Er; [discriminate|].
  intros H. injection H as <-.
  exists (rev before), last_row. cbn.
  repeat split; try reflexivity.
  - rewrite <- (rev_involutive entity_data), Er. reflexivity.
  - discriminate.
Qed.

Lemma entity_patterns_In (df : DataFrame) (p : EntityPattern) :
  In p (entities (calculate_collection_patterns df)) <->
  exists tl, In tl (licenses df) /\ entity_pattern tl (entity_data_of df tl) = Some p.
Proof. cbn. unfold entity_patterns_of. apply collect_In. Qed.

Lemma entity_data_license (df : DataFrame) (tl : Z) (e : CollectionEvent) :
  In e (entity_data_of df tl) -> In tl (licenses df).
Proof.
  unfold entity_data_of. rewrite sort_values_by_date_In, filter_In.
  intros [H1 H2]. apply licenses_In. exists e. split; [exact H1|].
  apply has_license_true. exact H2.
Qed.

(** ** Overdue days (C3) *)

(** C3, as the claim states it, fails: for collections on 2023-03-01 and
    2023-03-31 the next one is expected on 2023-04-30, twenty days after the
    reference date, and the pattern reports 0, not -20. *)
Lemma reported_days_overdue_not_negative :
  raw_days_overdue (entity_data_of df_monthly 1) (sample_event (Some 1) "E1" 19447) = -20 /\
  map days_overdue (entities (calculate_collection_patterns df_monthly)) = [0] /\
  map days_overdue (entities (calculate_collection_patterns df_monthly)) <> [-20].
Proof.
  split; [reflexivity|]. split; [reflexivity|]. discriminate.
Qed.

(** C3, amended. The reported days_overdue of every pattern is the whole-day
    difference between the reference date and the expected next collection
    (last collection plus mean interval), clamped below at 0: it is never
    negative; the risk tier is taken from the unclamped difference. *)
Theorem reported_days_overdue_clamped :
  forall (df : DataFrame) (p : EntityPattern),
    In p (entities (calculate_collection_patterns df)) ->
    exists before last_row,
      entity_data_of df (trade_license p) = before ++ [last_row] /\
      let raw := raw_days_overdue (entity_data_of df (trade_license p)) last_row in
      days_overdue p = Z.max 0 raw /\
      0 <= days_overdue p /\
      (0 <= raw -> days_overdue p = raw) /\
      risk_level p = get_risk_level raw.
Proof.
  intros df p Hp.
  apply entity_patterns_In in Hp. destruct Hp as [tl [_ Hp]].
  apply entity_pattern_Some in Hp.
  destruct Hp as [before [last_row [Hd [_ [Ht [_ [_ [_ [Ho Hr]]]]]]]]].
  exists before, last_row. rewrite Ht.
  split; [exact Hd|]. cbv zeta. rewrite Ho.
  repeat split; [lia | lia | exact Hr].
Qed.

Lemma reported_days_overdue_clamped_witness :
  In pattern_monthly (entities (calculate_collection_patterns df_monthly)) /\
  exists before last_row,
    entity_data_of df_monthly (trade_license pattern_monthly) = before ++ [last_row] /\
    let raw :=
      raw_days_overdue (entity_data_of df_monthly (trade_license pattern_monthly)) last_row in
    days_overdue pattern_monthly = Z.max 0 raw /\
    0 <= days_overdue pattern_monthly /\
    (0 <= raw -> days_overdue pattern_monthly = raw) /\
    risk_level pattern_monthly = get_risk_level raw.
Proof.
  split.
  - left. reflexivity.
  - apply (reported_days_overdue_clamped df_monthly pattern_monthly).
    left. reflexivity.
Defined.

(** ** Grouping key (C7) *)

Lemma collect_ext {A B : Type} (f g : A -> option B) (xs : list A) :
  (forall x, In x xs -> f x = g x) -> collect f xs = collect g xs.
Proof.
  induction xs as [|x xs IH]; intros H; simpl; [reflexivity|].
  rewrite (H x (or_introl eq_refl)), IH; [reflexivity|].
  intros y Hy. apply H. right. exact Hy.
Qed.

Lemma collect_key_NoDup {A B : Type} (f : A -> option B) (g : B -> A) (xs : list A) :
  (forall x y, f x = Some y -> g y = x) ->
  NoDup xs -> NoDup (map g (collect f xs)).
Proof.
  intros Hfg. induction 1 as [|x xs Hx Hnd IH]; simpl; [constructor|].
  destruct (f x) as [y|] eqn:E; [|exact IH].
  simpl. rewrite (Hfg x y E). constructor; [|exact IH].
  intros Hin. apply in_map_iff in Hin. destruct Hin as [y' [Hy' Hc]].
  apply collect_In in Hc. destruct Hc as [x' [Hx' Hf]].
  apply Hfg in Hf. congruence.
Qed.

Lemma licenses_filter_licensed (df : DataFrame) :
  dropna (map Trade_License_Number (filter licensed df)) =
  dropna (map Trade_License_Number df).
Proof.
  induction df as [|e df IH]; [reflexivity|].
  cbn [filter map dropna]. unfold licensed at 1.
  destruct (Trade_License_Number e) eqn:E; cbn [map dropna]; rewrite ?E, IH; reflexivity.
Qed.

Lemma has_license_filter_licensed (tl : Z) (df : DataFrame) :
  filter (has_license tl) (filter licensed df) = filter (has_license tl) df.
Proof.
  induction df as [|e df IH]; [reflexivity|].
  cbn [filter]. destruct (licensed e) eqn:El; cbn [filter].
  - rewrite IH. reflexivity.
  - assert (Hn : has_license tl e = false).
    { unfold licensed in El. unfold has_license.
      destruct (Trade_License_Number e); [discriminate | reflexivity]. }
    rewrite Hn. exact IH.
Qed.

(** C7, as the claim states it, fails: two frames that differ only in the
    trade-licence field of one row give different patterns. With the licence
    kept, entity E1 gets a pattern; with the licence renewed between its two
    collections, or not numeric, the same entity gets none. *)
Lemma grouping_depends_on_trade_license :
  map erase_license df_renewed = map erase_license df_kept /\
  map erase_license df_unlicensed = map erase_license df_kept /\
  map entity_id (entities (calculate_collection_patterns df_kept)) = ["E1"%string] /\
  entities (calculate_collection_patterns df_renewed) = [] /\
  entities (calculate_collection_patterns df_unlicensed) = [].
Proof. repeat split; reflexivity. Qed.

(** C7, amended. Entity patterns are keyed by Trade License Number: there is
    at most one pattern per licence, each pattern covers exactly the rows
    carrying its licence (whatever their entity identifier), and rows whose
    licence is missing take no part in the entity patterns. *)
Theorem patterns_keyed_by_trade_license :
  forall df : DataFrame,
    NoDup (map trade_license (entities (calculate_collection_patterns df))) /\
    Forall (fun p => collections_count p
                     = length (filter (has_license (trade_license p)) df))
           (entities (calculate_collection_patterns df)) /\
    entities (calculate_collection_patterns (filter licensed df))
    = entities (calculate_collection_patterns df).
Proof.
  intros df. cbn [entities calculate_collection_patterns]. repeat split.
  - unfold entity_patterns_of. apply collect_key_NoDup.
    + intros tl p Hp. apply entity_pattern_Some in Hp.
      destruct Hp as [? [? [_ [_ [Ht _]]]]]. exact Ht.
    + apply (unique_NoDup Z.eqb Z.eqb_eq).
  - apply Forall_forall. intros p Hp.
    apply (proj1 (entity_patterns_In df p)) in Hp. destruct Hp as [tl [_ Hp]].
    apply entity_pattern_Some in Hp.
    destruct Hp as [? [? [_ [_ [Ht [Hc _]]]]]].
    rewrite Hc, Ht. unfold entity_data_of. apply sort_values_by_date_length.
  - unfold entity_patterns_of, licenses. rewrite licenses_filter_licensed.
    apply collect_ext. intros tl _. unfold entity_data_of.
    rewrite has_license_filter_licensed. reflexivity.
Qed.

(** ** Delay analysis: alerts, tier counts, failure (C4, C6) *)

Lemma py_div_Ok (a b : Z) (q : Q) : py_div a b = Ok q -> b <> 0.
Proof.
  unfold py_div. destruct (Z.eqb_spec b 0); [discriminate | auto].
Qed.

Lemma generate_delays_analysis_Ok (patterns : Patterns) (r : Delays.t) :
  generate_delays_analysis patterns = Ok r ->
  entities patterns <> [] /\
  Delays.risk_summary r = risk_summary_of (entities patterns) /\
  Delays.critical_alerts r = critical_alerts_of (entities patterns) /\
  Delays.total_entities_analyzed r = length (entities patterns).
Proof.
  unfold generate_delays_analysis.
  destruct (py_div _ (Z.of_nat (length (entities patterns)))) as [q|e] eqn:E;
    cbn [bind]; [|discriminate].
  intros H. injection H as <-. cbn.
  apply py_div_Ok in E.
  repeat split. intros Hnil. rewrite Hnil in E. apply E. reflexivity.
Qed.

Lemma generate_delays_analysis_empty (patterns : Patterns) :
  entities patterns = [] ->
  generate_delays_analysis patterns = Raise ZeroDivisionError.
Proof.
  intros H. unfold generate_delays_analysis. rewrite H. reflexivity.
Qed.

Lemma generate_delays_analysis_nonempty (patterns : Patterns) :
  entities patterns <> [] ->
  exists r, generate_delays_analysis patterns = Ok r.
Proof.
  intros H. unfold generate_delays_analysis, py_div.
  destruct (entities patterns) as [|p ps] eqn:E; [contradiction|].
  destruct (Z.eqb_spec (Z.of_nat (length (p :: ps))) 0) as [H0|H0];
    [simpl in H0; lia|].
  cbn [bind]. eexists. reflexivity.
Qed.

(** With licence 1 eleven days overdue and licence 2 twenty days overdue,
    the alert list is in licence order, 11 before 20. *)
Lemma critical_alerts_not_sorted :
  match generate_delays_analysis (calculate_collection_patterns df_two_critical) with
  | Ok r =>
      map Alert.days_overdue (Delays.critical_alerts r) = [11; 20] /\
      overdue_descending (Delays.critical_alerts r) = false
  | Raise _ => False
  end.
Proof. vm_compute. split; reflexivity. Qed.

(** What the slice does: whenever the delay analysis returns, its alert list
    is made of the first min(20, number of critical entities) critical
    entities in the order of the entity patterns, one alert per entity. *)
Theorem critical_alerts_first_twenty :
  forall (patterns : Patterns) (r : Delays.t),
    generate_delays_analysis patterns = Ok r ->
    exists shown rest,
      filter (has_risk critical) (entities patterns) = shown ++ rest /\
      Delays.critical_alerts r = map alert_of shown /\
      length shown = Nat.min 20 (count_risk critical (entities patterns)) /\
      (length (Delays.critical_alerts r) <= 20)%nat /\
      Forall (fun e => risk_level e = critical) shown.
Proof.
  intros patterns r H.
  apply generate_delays_analysis_Ok in H. destruct H as [_ [_ [Ha _]]].
  set (crit := filter (has_risk critical) (entities patterns)).
  exists (firstn 20 crit), (skipn 20 crit).
  split; [symmetry; apply firstn_skipn|].
  split; [exact Ha|].
  split; [apply length_firstn|].
  split.
  - rewrite Ha. unfold critical_alerts_of. rewrite length_map, length_firstn.
    apply Nat.le_min_l.
  - apply Forall_forall. intros e He.
    assert (Hc : In e crit).
    { rewrite <- (firstn_skipn 20 crit). apply in_or_app. left. exact He. }
    apply filter_In in Hc. destruct Hc as [_ Hc].
    unfold has_risk in Hc. destruct (risk_level e); try discriminate. reflexivity.
Qed.

(** The four tiers partition any list of patterns. *)
Lemma count_risk_partition (ps : list EntityPattern) :
  (count_risk critical ps + count_risk warning ps
   + count_risk upcoming ps + count_risk normal ps = length ps)%nat.
Proof.
  unfold count_risk, has_risk.
  induction ps as [|p ps IH]; [reflexivity|].
  cbn [filter]. destruct (risk_level p); cbn [risk_eqb length]; lia.
Qed.

(** The overall [risk_summary] lists the four tiers and sums to the number
    of entity patterns. *)
Lemma risk_summary_total (ps : list EntityPattern) :
  sum_counts (risk_summary_of ps) = length ps.
Proof.
  unfold sum_counts, risk_summary_of. cbn [map snd list_sum fold_right].
  pose proof (count_risk_partition ps). lia.
Qed.

(** The per-category [risk_distribution] lists three tiers: its sum falls
    short of [total_entities] by the number of upcoming entities. *)
Lemma category_behavior_total (df : DataFrame) (ps : list EntityPattern)
    (c : string) (b : Behavior.t) :
  category_behavior df ps c = Ok (c, b) ->
  (sum_counts (Behavior.risk_distribution b)
   + count_risk upcoming (filter (fun e => String.eqb (category e) c) ps)
   = Behavior.total_entities b)%nat.
Proof.
  unfold category_behavior.
  destruct (py_int (series_min _)) as [lo|]; cbn [bind]; [|discriminate].
  destruct (py_int (series_max _)) as [hi|]; cbn [bind]; [|discriminate].
  intros H. injection H as <-. cbn.
  pose proof (count_risk_partition (filter (fun e => String.eqb (category e) c) ps)).
  unfold sum_counts. cbn [map snd list_sum fold_right]. lia.
Qed.

(** C4. The code at a failing input: a category whose only entity is one day
    overdue (tier upcoming) reports total_entities = 1 while the counts of its
    risk_distribution, which has no upcoming entry, sum to 0. *)
Theorem risk_distribution_omits_upcoming :
  map risk_level (entities (calculate_collection_patterns df_upcoming)) = [upcoming] /\
  match generate_entity_intelligence df_upcoming (calculate_collection_patterns df_upcoming) with
  | Ok r =>
      map (fun kb => (fst kb,
                      Behavior.total_entities (snd kb),
                      Behavior.risk_distribution (snd kb),
                      sum_counts (Behavior.risk_distribution (snd kb))))
          (Intel.category_behavior_patterns r)
      = [("Restaurant"%string, 1%nat,
          [(critical, 0%nat); (warning, 0%nat); (normal, 0%nat)], 0%nat)]
  | Raise _ => False
  end.
Proof. vm_compute. split; reflexivity. Qed.

Lemma single_event_no_pattern (e : CollectionEvent) : entity_patterns_of [e] = [].
Proof.
  unfold entity_patterns_of, licenses. cbn [map dropna].
  destruct (Trade_License_Number e) as [tl|] eqn:E; [|reflexivity].
  cbn. unfold entity_data_of. cbn [filter].
  destruct (has_license tl e); reflexivity.
Qed.

(** C6. The code at a failing input: for a frame of one event no entity has
    a valid interval, the entity patterns are empty, and the delay analysis
    raises ZeroDivisionError when it computes its delay rate; so it does on
    the patterns of the empty frame. *)
Theorem single_event_raises :
  forall e : CollectionEvent,
    entities (calculate_collection_patterns [e]) = [] /\
    generate_delays_analysis (calculate_collection_patterns [e]) = Raise ZeroDivisionError /\
    generate_delays_analysis (calculate_collection_patterns []) = Raise ZeroDivisionError.
Proof.
  intros e.
  assert (H : entities (calculate_collection_patterns [e]) = [])
    by apply single_event_no_pattern.
  split; [exact H|].
  split; [apply generate_delays_analysis_empty; exact H | reflexivity].
Qed.

(** ** Group averages *)

Lemma sumZ_app (xs ys : list Z) : sumZ (xs ++ ys) = sumZ xs + sumZ ys.
Proof. induction xs as [|x xs IH]; simpl; [reflexivity | rewrite IH; lia]. Qed.

Lemma sumZ_concat (ls : list (list Z)) : sumZ (concat ls) = sumZ (map sumZ ls).
Proof.
  induction ls as [|l ls IH]; simpl; [reflexivity|].
  rewrite sumZ_app, IH. reflexivity.
Qed.

Lemma mean_or_14_concat (ls : list (list Z)) : mean_or_14 (concat ls) = pooled_gap_mean ls.
Proof.
  unfold pooled_gap_mean. cbv zeta.
  rewrite <- sumZ_concat, <- length_concat.
  destruct (concat ls) as [|g gs]; reflexivity.
Qed.

(** C5, as the claim states it, fails. E1 has one gap of 10 days and E2 two
    gaps of 20: the category reports 16.7, the mean of the three gaps, where
    the unweighted mean of the two entities is 15. And a member with a single
    collection is left out, not counted as 14: with E1 and such a member the
    category reports 10, where the claim gives 12. *)
Lemma category_average_not_unweighted :
  Cat.avg_interval_days (category_pattern df_mixed "Restaurant") = 167 # 10 /\
  (spec_group_avg_interval (filter (in_category "Restaurant") df_mixed) == 15)%Q /\
  Cat.avg_interval_days (category_pattern df_lonely "Restaurant") = 100 # 10 /\
  (spec_group_avg_interval (filter (in_category "Restaurant") df_lonely) == 12)%Q /\
  ~ (Cat.avg_interval_days (category_pattern df_mixed "Restaurant")
     == spec_group_avg_interval (filter (in_category "Restaurant") df_mixed))%Q.
Proof.
  split; [reflexivity|]. split; [reflexivity|].
  split; [reflexivity|]. split; [reflexivity|].
  intros H. vm_compute in H. discriminate.
Qed.

(** The group value in terms of the lists the code pools. *)
Lemma group_interval_is_pooled_gap_mean :
  forall (df : DataFrame) (key : string),
    Cat.avg_interval_days (category_pattern df key)
    = pooled_gap_mean (per_entity_intervals (filter (in_category key) df)) /\
    Geo.avg_interval_days (geographic_pattern df key)
    = pooled_gap_mean (per_entity_intervals (filter (in_area key) df)).
Proof.
  intros df key. split; cbn.
  - unfold calculate_category_intervals. rewrite flat_map_concat_map.
    apply mean_or_14_concat.
  - unfold calculate_area_intervals. rewrite flat_map_concat_map.
    apply mean_or_14_concat.
Qed.

(** ** Capacity forecast (C1) *)

Lemma list_sum_indicator {A : Type} (f : A -> bool) (xs : list A) :
  list_sum (map (fun x => if f x then 1%nat else 0%nat) xs) = length (filter f xs).
Proof.
  induction xs as [|x xs IH]; [reflexivity|].
  cbn [map list_sum fold_right filter].
  change (fold_right Nat.add 0%nat (map (fun x => if f x then 1%nat else 0%nat) xs))
    with (list_sum (map (fun x => if f x then 1%nat else 0%nat) xs)).
  rewrite IH. destruct (f x); reflexivity.
Qed.

Lemma contribution_matched_days (e : EntityPattern) :
  contribution e = length (filter (fun i => due_near (future_date i) e) horizon).
Proof.
  unfold contribution, daily_capacity_needed. rewrite map_map. cbn [snd].
  rewrite <- list_sum_indicator. f_equal. apply map_ext. intros i.
  unfold collections_needed. cbn [filter].
  destruct (due_near (future_date i) e); reflexivity.
Qed.

(** The day offsets on which an entity is counted form a window of width 3. *)
Lemma due_near_window (e : EntityPattern) (i : Z) :
  let next := (to_datetime (last_collection_date e) + timedelta (avg_interval_days e))%Q in
  let f := days (to_datetime reference_day - next)%Q in
  due_near (future_date i) e = (Z.abs (i + f) <=? 1).
Proof.
  cbv zeta. unfold due_near, future_date, days, timedelta.
  rewrite <- Qfloor_shift. do 2 f_equal.
  apply Qfloor_comp. ring.
Qed.

Lemma horizon_NoDup : NoDup horizon.
Proof.
  unfold horizon. apply Injective_map_NoDup.
  - intros a b H. apply Nat2Z.inj. exact H.
  - apply seq_NoDup.
Qed.

Lemma window_length (f : Z) (xs : list Z) :
  NoDup xs -> (length (filter (fun i => (Z.abs (i + f) <=? 1)%Z) xs) <= 3)%nat.
Proof.
  intros Hnd.
  change 3%nat with (length [-1 - f; - f; 1 - f]).
  apply NoDup_incl_length.
  - apply NoDup_filter. exact Hnd.
  - intros i Hi. apply filter_In in Hi. destruct Hi as [_ Hi].
    apply Z.leb_le in Hi. cbn [In]. lia.
Qed.

(** The forecast counts add up to the contributions of the entities. *)
Lemma forecast_total_contributions (es : list EntityPattern) :
  list_sum (map snd (daily_capacity_needed es)) = list_sum (map contribution es).
Proof.
  induction es as [|e es IH].
  - unfold daily_capacity_needed, collections_needed. rewrite map_map. cbn [filter length snd map list_sum].
    induction horizon as [|i h IHh]; [reflexivity | exact IHh].
  - cbn [map list_sum fold_right].
    change (fold_right Nat.add 0%nat (map contribution es)) with (list_sum (map contribution es)).
    rewrite <- IH. unfold contribution, daily_capacity_needed.
    rewrite !map_map. cbn [snd]. unfold collections_needed.
    induction horizon as [|i h IHh]; [reflexivity|].
    cbn [map list_sum fold_right filter] in *.
    destruct (due_near (future_date i) e); cbn [length]; unfold list_sum in *; lia.
Qed.

(** C1, as the claim states it, fails: the entity with its last collection
    on day 0 and a 10-day interval is counted on three forecast days, days 9,
    10 and 11, not on one. *)
Lemma entity_counted_on_three_days :
  filter counted (daily_capacity_needed [pattern_day0])
  = [ (reference_day + 9, 1%nat); (reference_day + 10, 1%nat); (reference_day + 11, 1%nat) ] /\
  contribution pattern_day0 = 3%nat /\
  ~ (contribution pattern_day0 <= 1)%nat.
Proof.
  split; [reflexivity|]. split; [reflexivity|].
  intros H. vm_compute in H. lia.
Qed.

(** C1, amended. In the 30-day forecast from 2023-04-10 every entity is
    counted on each day whose whole-day distance to its expected next
    collection is at most 1, hence on at most three forecast days; the entity
    with its last collection on day 0 and a 10-day interval is counted on
    exactly the three days 9, 10 and 11. *)
Theorem entity_counted_on_at_most_three_days :
  forall e : EntityPattern,
    (contribution e <= 3)%nat /\
    map fst (filter counted (daily_capacity_needed [pattern_day0]))
    = [reference_day + 9; reference_day + 10; reference_day + 11].
Proof.
  intros e. split; [|reflexivity].
  rewrite contribution_matched_days.
  rewrite (filter_ext _ _ (due_near_window e)).
  apply window_length. apply horizon_NoDup.
Qed.

(** ** The report footer *)

Lemma append_inj_l (s t u : string) : (s ++ t = s ++ u)%string -> t = u.
Proof.
  induction s as [|c s IH]; simpl; intros H; [exact H|].
  injection H as H. apply IH. exact H.
Qed.

Lemma string_length_append (s t : string) :
  String.length (s ++ t) = (String.length s + String.length t)%nat.
Proof. induction s as [|c s IH]; simpl; [reflexivity | rewrite IH; reflexivity]. Qed.

Lemma append_inj_r (t s s' : string) : (s ++ t = s' ++ t)%string -> s = s'.
Proof.
  revert s'. induction s as [|c s IH]; intros [|c' s'] H; simpl in H.
  - reflexivity.
  - apply (f_equal String.length) in H. simpl in H.
    rewrite string_length_append in H. lia.
  - apply (f_equal String.length) in H. simpl in H.
    rewrite string_length_append in H. lia.
  - injection H as -> H. f_equal. apply IH. exact H.
Qed.

(** Two runs of the report generator on the same rows, one second apart,
    give different reports: the footer carries the time of the run. *)
Lemma report_depends_on_clock :
  csv_rows world_a = csv_rows world_b /\
  data_analysis_main title_section world_a <> data_analysis_main title_section world_b.
Proof.
  split; [reflexivity|].
  intros H. vm_compute in H. discriminate.
Qed.

(** * Further properties of the code *)

(** ** Sorting and gaps *)

Lemma insert_by_date_perm (e : CollectionEvent) (rows : DataFrame) :
  Permutation (insert_by_date e rows) (e :: rows).
Proof.
  induction rows as [|r rows IH]; simpl; [apply Permutation_refl|].
  destruct (Qle_bool _ _); [apply Permutation_refl|].
  apply perm_trans with (r :: e :: rows); [apply perm_skip; exact IH | apply perm_swap].
Qed.

Lemma sort_values_by_date_perm (rows : DataFrame) :
  Permutation (sort_values_by_date rows) rows.
Proof.
  induction rows as [|e rows IH]; simpl; [apply perm_nil|].
  apply perm_trans with (e :: sort_values_by_date rows);
    [apply insert_by_date_perm | apply perm_skip; exact IH].
Qed.

Lemma insert_by_date_sorted (e : CollectionEvent) (rows : DataFrame) :
  StronglySorted date_le rows -> StronglySorted date_le (insert_by_date e rows).
Proof.
  induction 1 as [|r rows Hs IH Hall]; simpl.
  - constructor; constructor.
  - destruct (Qle_bool (Collected_Date e) (Collected_Date r)) eqn:E.
    + apply Qle_bool_iff in E. constructor.
      * constructor; assumption.
      * constructor; [exact E|].
        apply Forall_forall. intros x Hx.
        rewrite Forall_forall in Hall. specialize (Hall x Hx).
        unfold date_le in *. apply Qle_trans with (Collected_Date r); assumption.
    + assert (Hlt : (Collected_Date r <= Collected_Date e)%Q).
      { apply Qnot_lt_le. intros Hlt. apply Qlt_le_weak in Hlt.
        apply Qle_bool_iff in Hlt. congruence. }
      constructor; [exact IH|].
      apply Forall_forall. intros x Hx.
      apply insert_by_date_In in Hx. destruct Hx as [->|Hx]; [exact Hlt|].
      rewrite Forall_forall in Hall. apply Hall. exact Hx.
Qed.

Lemma sort_values_by_date_sorted (rows : DataFrame) :
  StronglySorted date_le (sort_values_by_date rows).
Proof.
  induction rows as [|e rows IH]; simpl; [constructor|].
  apply insert_by_date_sorted. exact IH.
Qed.

Lemma gaps_sorted_nonneg (rows : DataFrame) :
  StronglySorted date_le rows -> Forall (fun g => 0 <= g) (gaps (map Collected_Date rows)).
Proof.
  induction 1 as [|r rows Hs IH Hall]; [constructor|].
  destruct rows as [|r' rows']; [constructor|].
  change (gaps (map Collected_Date (r :: r' :: rows')))
    with (days (Collected_Date r' - Collected_Date r)%Q
          :: gaps (map Collected_Date (r' :: rows'))).
  constructor; [|exact IH].
  inversion Hall as [|? ? Hle _]; subst. unfold date_le in Hle.
  unfold days. rewrite <- (Qfloor_Z 0). apply Qfloor_resp_le.
  change (inject_Z 0) with 0%Q. lra.
Qed.

(** The rows of a licence are looked at in ascending date order, none lost
    and none merged, so no gap is negative: the lower bound of the interval
    test rejects same-day repeats only. *)
Theorem entity_data_sorted :
  forall (df : DataFrame) (tl : Z),
    Permutation (entity_data_of df tl) (filter (has_license tl) df) /\
    StronglySorted date_le (entity_data_of df tl) /\
    Forall (fun g => 0 <= g) (gaps (map Collected_Date (entity_data_of df tl))) /\
    (forall g, In g (gaps (map Collected_Date (entity_data_of df tl))) ->
               in_range g = false -> g = 0 \/ 120 < g).
Proof.
  intros df tl. unfold entity_data_of.
  pose proof (sort_values_by_date_sorted (filter (has_license tl) df)) as Hs.
  pose proof (gaps_sorted_nonneg _ Hs) as Hg.
  repeat split; [apply sort_values_by_date_perm | exact Hs | exact Hg |].
  intros g Hin Hr. rewrite Forall_forall in Hg. specialize (Hg g Hin).
  unfold in_range in Hr. apply andb_false_iff in Hr.
  destruct Hr as [Hr|Hr]; apply Z.leb_gt in Hr; lia.
Qed.

(** ** Bounds on the mean and on rounding *)

Lemma sumZ_bounds (a b : Z) (xs : list Z) :
  Forall (fun x => a <= x <= b) xs ->
  a * Z.of_nat (length xs) <= sumZ xs <= b * Z.of_nat (length xs).
Proof.
  induction 1 as [|x xs Hx _ IH]; [simpl; lia|].
  cbn [length sumZ]. rewrite Nat2Z.inj_succ. lia.
Qed.

Lemma np_mean_bounds (a b : Z) (xs : list Z) :
  xs <> [] ->
  Forall (fun x => a <= x <= b) xs ->
  (inject_Z a <= np_mean xs <= inject_Z b)%Q.
Proof.
  intros Hne Hall. pose proof (sumZ_bounds a b xs Hall) as [Hlo Hhi].
  assert (Hn : 0 < Z.of_nat (length xs)) by (destruct xs; [contradiction | simpl; lia]).
  assert (HnQ : (0 < inject_Z (Z.of_nat (length xs)))%Q).
  { change 0%Q with (inject_Z 0). rewrite <- Zlt_Qlt. exact Hn. }
  unfold np_mean. split.
  - apply Qle_shift_div_l; [exact HnQ|].
    rewrite <- inject_Z_mult, <- Zle_Qle. exact Hlo.
  - apply Qle_shift_div_r; [exact HnQ|].
    rewrite <- inject_Z_mult, <- Zle_Qle. exact Hhi.
Qed.

Lemma rint_floor (x : Q) : Qfloor x <= rint x <= Qfloor x + 1.
Proof.
  unfold rint. cbv zeta.
  destruct (x - inject_Z (Qfloor x) ?= 1 # 2)%Q; [destruct (Z.even _)| |]; lia.
Qed.

Lemma rint_ge (n : Z) (x : Q) : (inject_Z n <= x)%Q -> n <= rint x.
Proof.
  intros H. apply Qfloor_resp_le in H. rewrite Qfloor_Z in H.
  pose proof (rint_floor x). lia.
Qed.

Lemma rint_le (n : Z) (x : Q) : (x <= inject_Z n)%Q -> rint x <= n.
Proof.
  intros H. pose proof (Qfloor_resp_le _ _ H) as Hf. rewrite Qfloor_Z in Hf.
  destruct (Z.eq_dec (Qfloor x) n) as [He|Hn].
  - rewrite (rint_whole x n); [lia|].
    apply Qle_antisym; [exact H|]. rewrite <- He. apply Qfloor_le.
  - pose proof (rint_floor x). lia.
Qed.

Lemma round1_bounds (a b : Z) (x : Q) :
  (inject_Z a <= x <= inject_Z b)%Q -> (inject_Z a <= round1 x <= inject_Z b)%Q.
Proof.
  intros [Hlo Hhi]. unfold round1.
  assert (H1 : a * 10 <= rint (x * 10)).
  { apply rint_ge. rewrite inject_Z_mult. change (inject_Z 10) with 10%Q. lra. }
  assert (H2 : rint (x * 10) <= b * 10).
  { apply rint_le. rewrite inject_Z_mult. change (inject_Z 10) with 10%Q. lra. }
  rewrite Zle_Qle, inject_Z_mult in H1, H2. change (inject_Z 10) with 10%Q in H1, H2.
  split.
  - apply Qle_shift_div_l; [reflexivity | exact H1].
  - apply Qle_shift_div_r; [reflexivity | exact H2].
Qed.

(** ** Invariants of the entity patterns *)

Lemma entity_pattern_fields (tl : Z) (entity_data : DataFrame) (p : EntityPattern) :
  entity_pattern tl entity_data = Some p ->
  exists last_row,
    In last_row entity_data /\
    (2 <= length entity_data)%nat /\
    valid_intervals (map Collected_Date entity_data) <> [] /\
    collections_count p = length entity_data /\
    avg_interval_days p = round1 (np_mean (valid_intervals (map Collected_Date entity_data))) /\
    last_collection_date p = strftime_ymd (Collected_Date last_row) /\
    days_since_last p = days (reference_date - Collected_Date last_row)%Q /\
    days_overdue p = Z.max 0 (raw_days_overdue entity_data last_row) /\
    risk_level p = get_risk_level (raw_days_overdue entity_data last_row).
Proof.
  unfold entity_pattern, raw_days_overdue.
  destruct (2 <=? length entity_data)%nat eqn:El; [|discriminate].
  destruct (valid_intervals (map Collected_Date entity_data)) as [|g gs] eqn:Ev;
    [discriminate|].
  destruct (rev entity_data) as [|last_row before] eqn:Er; [discriminate|].
  intros H. injection H as <-.
  exists last_row. cbn.
  repeat split; try reflexivity.
  - apply in_rev. rewrite Er. left. reflexivity.
  - apply Nat.leb_le. exact El.
  - discriminate.
Qed.

Lemma raw_days_overdue_bounds (entity_data : DataFrame) (last_row : CollectionEvent) :
  valid_intervals (map Collected_Date entity_data) <> [] ->
  days (reference_date - Collected_Date last_row)%Q - 120
  <= raw_days_overdue entity_data last_row
  <= days (reference_date - Collected_Date last_row)%Q - 1.
Proof.
  intros Hne.
  pose proof (np_mean_bounds 1 120 _ Hne (valid_intervals_in_range _)) as [Hlo Hhi].
  unfold raw_days_overdue, expected_next, timedelta, days.
  set (m := np_mean (valid_intervals (map Collected_Date entity_data))) in *.
  set (x := (reference_date - Collected_Date last_row)%Q).
  replace (Qfloor x - 120) with (-120 + Qfloor x) by lia.
  replace (Qfloor x - 1) with (-1 + Qfloor x) by lia.
  rewrite <- !Qfloor_shift.
  change (inject_Z 1) with 1%Q in Hlo. change (inject_Z 120) with 120%Q in Hhi.
  split; apply Qfloor_resp_le; subst x;
    [change (inject_Z (-120)) with (-120)%Q | change (inject_Z (-1)) with (-1)%Q]; lra.
Qed.

(** Every entity pattern has at least two collections and a mean interval
    between 1 and 120 days; its reported days_overdue is not negative, is
    less than days_since_last whenever it is positive, and is never more than
    120 days behind it. *)
Theorem entity_pattern_invariants :
  forall (df : DataFrame) (p : EntityPattern),
    In p (entities (calculate_collection_patterns df)) ->
    (2 <= collections_count p)%nat /\
    (1 <= avg_interval_days p <= 120)%Q /\
    0 <= days_overdue p /\
    days_overdue p <= Z.max 0 (days_since_last p - 1) /\
    days_since_last p - 120 <= days_overdue p.
Proof.
  intros df p Hp.
  apply entity_patterns_In in Hp. destruct Hp as [tl [_ Hp]].
  apply entity_pattern_fields in Hp.
  destruct Hp as [last_row [_ [Hlen [Hne [Hc [Havg [_ [Hs [Ho _]]]]]]]]].
  pose proof (raw_days_overdue_bounds _ last_row Hne) as Hb.
  rewrite Hc, Havg, Hs, Ho.
  split; [exact Hlen|].
  split.
  - apply (round1_bounds 1 120).
    apply np_mean_bounds; [exact Hne | apply valid_intervals_in_range].
  - lia.
Qed.

Lemma entity_pattern_invariants_witness :
  In pattern_monthly (entities (calculate_collection_patterns df_monthly)) /\
  (2 <= collections_count pattern_monthly)%nat /\
  (1 <= avg_interval_days pattern_monthly <= 120)%Q /\
  0 <= days_overdue pattern_monthly /\
  days_overdue pattern_monthly <= Z.max 0 (days_since_last pattern_monthly - 1) /\
  days_since_last pattern_monthly - 120 <= days_overdue pattern_monthly.
Proof.
  split.
  - left. reflexivity.
  - apply (entity_pattern_invariants df_monthly pattern_monthly).
    left. reflexivity.
Defined.

Lemma get_risk_level_clamp (d : Z) : get_risk_level (Z.max 0 d) = get_risk_level d.
Proof.
  unfold get_risk_level.
  destruct (Z.leb_spec d 0), (Z.leb_spec (Z.max 0 d) 0); try lia; try reflexivity.
  replace (Z.max 0 d) with d by lia. reflexivity.
Qed.

Lemma risk_level_reported (df : DataFrame) (p : EntityPattern) :
  In p (entities (calculate_collection_patterns df)) ->
  risk_level p = get_risk_level (days_overdue p).
Proof.
  intros Hp. apply entity_patterns_In in Hp. destruct Hp as [tl [_ Hp]].
  apply entity_pattern_fields in Hp.
  destruct Hp as [last_row [_ [_ [_ [_ [_ [_ [_ [Ho Hr]]]]]]]]].
  rewrite Hr, Ho. symmetry. apply get_risk_level_clamp.
Qed.

(** The clamp keeps the tier readable from the report: every pattern's
    risk_level is the tier of its reported days_overdue, and the pattern is
    normal exactly when it reports 0. *)
Theorem risk_level_of_reported_days :
  forall (df : DataFrame) (p : EntityPattern),
    In p (entities (calculate_collection_patterns df)) ->
    risk_level p = get_risk_level (days_overdue p) /\
    (risk_level p = normal <-> days_overdue p = 0).
Proof.
  intros df p Hp.
  apply entity_patterns_In in Hp. destruct Hp as [tl [_ Hp]].
  apply entity_pattern_fields in Hp.
  destruct Hp as [last_row [_ [_ [_ [_ [_ [_ [_ [Ho Hr]]]]]]]]].
  assert (H : risk_level p = get_risk_level (days_overdue p)).
  { rewrite Hr, Ho. symmetry. apply get_risk_level_clamp. }
  split; [exact H|].
  rewrite H. unfold get_risk_level.
  destruct (Z.leb_spec (days_overdue p) 0) as [Hle|Hgt].
  - split; [lia | reflexivity].
  - split; [|lia].
    destruct (days_overdue p <=? 5); [discriminate|].
    destruct (days_overdue p <=? 10); discriminate.
Qed.

Lemma risk_level_of_reported_days_witness :
  In pattern_monthly (entities (calculate_collection_patterns df_monthly)) /\
  risk_level pattern_monthly = get_risk_level (days_overdue pattern_monthly) /\
  (risk_level pattern_monthly = normal <-> days_overdue pattern_monthly = 0).
Proof.
  split.
  - left. reflexivity.
  - apply (risk_level_of_reported_days df_monthly pattern_monthly).
    left. reflexivity.
Defined.

(** ** The delay analysis *)

Lemma count_risk_le (r : RiskLevel) (ps : list EntityPattern) :
  (count_risk r ps <= length ps)%nat.
Proof. unfold count_risk. apply filter_length_le. Qed.

Lemma generate_delays_analysis_record (patterns : Patterns) (r : Delays.t) :
  generate_delays_analysis patterns = Ok r ->
  let ps := entities patterns in
  let delayed := (count_risk critical ps + count_risk warning ps)%nat in
  ps <> [] /\
  Delays.risk_summary r = risk_summary_of ps /\
  Delays.by_area r = delays_by area ps /\
  Delays.by_category r = delays_by category ps /\
  Delays.high_risk_areas r = high_risk 10 (delays_by area ps) /\
  Delays.high_risk_categories r = high_risk 5 (delays_by category ps) /\
  Delays.total_entities_analyzed r = length ps /\
  Delays.entities_with_delays r = delayed /\
  Delays.delay_rate r
  = (inject_Z (Z.of_nat delayed) / inject_Z (Z.of_nat (length ps)) * 100)%Q.
Proof.
  unfold generate_delays_analysis, py_div.
  destruct (Z.eqb_spec (Z.of_nat (length (entities patterns))) 0) as [H0|H0];
    cbn [bind]; [discriminate|].
  intros H. injection H as <-. cbn.
  repeat split. intros Hnil. rewrite Hnil in H0. apply H0. reflexivity.
Qed.

(** The delay analysis fails exactly when there is no entity pattern, and
    then with ZeroDivisionError; it raises nothing else. *)
Theorem delays_analysis_raises_iff_no_pattern :
  forall patterns : Patterns,
    (generate_delays_analysis patterns = Raise ZeroDivisionError <->
     entities patterns = []) /\
    (forall e, generate_delays_analysis patterns = Raise e -> e = ZeroDivisionError) /\
    ((exists r, generate_delays_analysis patterns = Ok r) <-> entities patterns <> []).
Proof.
  intros patterns.
  assert (Hcases : entities patterns = [] \/ entities patterns <> []).
  { destruct (entities patterns); [left; reflexivity | right; discriminate]. }
  destruct Hcases as [Hnil|Hne].
  - pose proof (generate_delays_analysis_empty patterns Hnil) as Hr.
    rewrite Hr. repeat split; auto.
    + intros e He. congruence.
    + intros [r Hok]. discriminate.
    + intros H. contradiction.
  - destruct (generate_delays_analysis_nonempty patterns Hne) as [r Hr].
    rewrite Hr. repeat split; try discriminate; auto.
    + intros H. contradiction.
    + intros _. exists r. reflexivity.
Qed.

(** Whenever the delay analysis returns, its four tier counts add up to the
    number of entities analysed, entities_with_delays is the critical plus
    the warning count, and the delay rate is a percentage between 0 and
    100. *)
Theorem delays_summary_consistent :
  forall (patterns : Patterns) (r : Delays.t),
    generate_delays_analysis patterns = Ok r ->
    sum_counts (Delays.risk_summary r) = Delays.total_entities_analyzed r /\
    Delays.entities_with_delays r
    = (risk_count (Delays.risk_summary r) critical
       + risk_count (Delays.risk_summary r) warning)%nat /\
    (Delays.entities_with_delays r <= Delays.total_entities_analyzed r)%nat /\
    (0 <= Delays.delay_rate r <= 100)%Q.
Proof.
  intros patterns r H.
  apply generate_delays_analysis_record in H. cbv zeta in H.
  destruct H as [Hne [Hs [_ [_ [_ [_ [Ht [Hd Hrate]]]]]]]].
  set (ps := entities patterns) in *.
  assert (Hle : (count_risk critical ps + count_risk warning ps <= length ps)%nat).
  { pose proof (count_risk_partition ps). lia. }
  rewrite Hs, Ht, Hd, Hrate.
  split; [apply risk_summary_total|].
  split; [reflexivity|].
  split; [exact Hle|].
  set (d := (count_risk critical ps + count_risk warning ps)%nat) in *.
  assert (Hn : (0 < inject_Z (Z.of_nat (length ps)))%Q).
  { change 0%Q with (inject_Z 0). rewrite <- Zlt_Qlt.
    destruct ps; [contradiction | simpl; lia]. }
  assert (Hq0 : (0 <= inject_Z (Z.of_nat d) / inject_Z (Z.of_nat (length ps)))%Q).
  { apply Qle_shift_div_l; [exact Hn|].
    rewrite Qmult_0_l. change 0%Q with (inject_Z 0). rewrite <- Zle_Qle. lia. }
  assert (Hq1 : (inject_Z (Z.of_nat d) / inject_Z (Z.of_nat (length ps)) <= 1)%Q).
  { apply Qle_shift_div_r; [exact Hn|].
    rewrite Qmult_1_l, <- Zle_Qle. lia. }
  set (q := (inject_Z (Z.of_nat d) / inject_Z (Z.of_nat (length ps)))%Q) in *.
  split; lra.
Qed.

Lemma delays_summary_consistent_witness :
  exists r,
    generate_delays_analysis (calculate_collection_patterns df_two_critical) = Ok r /\
    sum_counts (Delays.risk_summary r) = Delays.total_entities_analyzed r /\
    Delays.entities_with_delays r
    = (risk_count (Delays.risk_summary r) critical
       + risk_count (Delays.risk_summary r) warning)%nat /\
    (Delays.entities_with_delays r <= Delays.total_entities_analyzed r)%nat /\
    (0 <= Delays.delay_rate r <= 100)%Q.
Proof.
  eexists. split.
  - vm_compute. reflexivity.
  - apply (delays_summary_consistent (calculate_collection_patterns df_two_critical)).
    vm_compute. reflexivity.
Defined.

(** *** The per-key counters *)

Lemma dc_lookup_update (k k0 : string) (r : RiskLevel) (d : list (string * DelayCount)) :
  dc_lookup k (dc_update k0 r d)
  = if String.eqb k0 k then Some (dc_step r (dc_default (dc_lookup k0 d)))
    else dc_lookup k d.
Proof.
  induction d as [|[k' c] d IH].
  - simpl. destruct (String.eqb k0 k); reflexivity.
  - cbn [dc_update dc_lookup].
    destruct (String.eqb_spec k' k0) as [->|Hne].
    + cbn [dc_lookup]. destruct (String.eqb k0 k); reflexivity.
    + cbn [dc_lookup]. rewrite IH.
      destruct (String.eqb_spec k' k) as [->|Hne'].
      * destruct (String.eqb_spec k0 k) as [->|_]; [contradiction | reflexivity].
      * reflexivity.
Qed.

Lemma dc_update_keys (k0 k : string) (r : RiskLevel) (d : list (string * DelayCount)) :
  In k (map fst (dc_update k0 r d)) <-> k = k0 \/ In k (map fst d).
Proof.
  induction d as [|[k' c] d IH].
  - simpl. split; intros [H|H]; auto.
  - cbn [dc_update]. destruct (String.eqb_spec k' k0) as [->|Hne]; cbn [map fst In].
    + split; [intros [H|H]; auto | intros [H|[H|H]]; auto].
    + rewrite IH. tauto.
Qed.

Lemma dc_update_NoDup (k0 : string) (r : RiskLevel) (d : list (string * DelayCount)) :
  NoDup (map fst d) -> NoDup (map fst (dc_update k0 r d)).
Proof.
  induction d as [|[k' c] d IH]; intros Hnd.
  - simpl. constructor; [intros [] | constructor].
  - cbn [dc_update]. cbn [map fst] in Hnd. inversion Hnd as [|? ? Hn Hnd']; subst.
    destruct (String.eqb_spec k' k0) as [->|Hne]; cbn [map fst].
    + constructor; assumption.
    + constructor; [|apply IH; exact Hnd'].
      rewrite dc_update_keys. intros [H|H]; [congruence | contradiction].
Qed.

Lemma dc_step_plus (r : RiskLevel) (c : DelayCount) :
  dc_step r c = dc_plus c (dc_step r dc_zero).
Proof.
  destruct c as [a b t]. destruct r; unfold dc_step, dc_plus, dc_zero; cbn;
    f_equal; lia.
Qed.

Lemma dc_plus_assoc (a b c : DelayCount) : dc_plus (dc_plus a b) c = dc_plus a (dc_plus b c).
Proof. unfold dc_plus; cbn; f_equal; lia. Qed.

Lemma dc_plus_zero_r (a : DelayCount) : dc_plus a dc_zero = a.
Proof. destruct a. unfold dc_plus, dc_zero; cbn; f_equal; lia. Qed.

Lemma dc_plus_zero_l (a : DelayCount) : dc_plus dc_zero a = a.
Proof. destruct a. reflexivity. Qed.

Lemma counter_of_cons (key : EntityPattern -> string) (k : string)
    (e : EntityPattern) (ps : list EntityPattern) :
  counter_of key k (e :: ps)
  = if String.eqb (key e) k
    then dc_plus (dc_step (risk_level e) dc_zero) (counter_of key k ps)
    else counter_of key k ps.
Proof.
  unfold counter_of. cbn [filter].
  destruct (String.eqb (key e) k); [|reflexivity].
  unfold count_risk, has_risk. cbn [filter].
  destruct (risk_level e); reflexivity.
Qed.

Lemma counter_of_absent (key : EntityPattern -> string) (k : string)
    (ps : list EntityPattern) :
  existsb (fun e => String.eqb (key e) k) ps = false -> counter_of key k ps = dc_zero.
Proof.
  intros H. unfold counter_of.
  assert (Hf : filter (fun e => String.eqb (key e) k) ps = []).
  { induction ps as [|e ps IH]; [reflexivity|].
    cbn [existsb] in H. apply orb_false_iff in H. destruct H as [H1 H2].
    cbn [filter]. rewrite H1. apply IH. exact H2. }
  rewrite Hf. reflexivity.
Qed.

Lemma delays_fold_lookup (key : EntityPattern -> string) (ps : list EntityPattern)
    (d : list (string * DelayCount)) (k : string) :
  dc_lookup k (fold_left (dc_step_of key) ps d)
  = if existsb (fun e => String.eqb (key e) k) ps
    then Some (dc_plus (dc_default (dc_lookup k d)) (counter_of key k ps))
    else dc_lookup k d.
Proof.
  revert d. induction ps as [|e ps IH]; intros d; [reflexivity|].
  cbn [fold_left existsb]. rewrite IH.
  unfold dc_step_of. rewrite dc_lookup_update, counter_of_cons.
  destruct (String.eqb_spec (key e) k) as [Hk|Hk]; cbn [orb dc_default].
  - subst k. rewrite (dc_step_plus _ (dc_default _)).
    destruct (existsb (fun e0 => String.eqb (key e0) (key e)) ps) eqn:Eex.
    + rewrite dc_plus_assoc. reflexivity.
    + rewrite (counter_of_absent _ _ _ Eex), dc_plus_zero_r. reflexivity.
  - reflexivity.
Qed.

Lemma delays_fold_NoDup (key : EntityPattern -> string) (ps : list EntityPattern)
    (d : list (string * DelayCount)) :
  NoDup (map fst d) -> NoDup (map fst (fold_left (dc_step_of key) ps d)).
Proof.
  revert d. induction ps as [|e ps IH]; intros d Hnd; [exact Hnd|].
  cbn [fold_left]. apply IH. unfold dc_step_of. apply dc_update_NoDup. exact Hnd.
Qed.

Lemma delays_by_NoDup (key : EntityPattern -> string) (ps : list EntityPattern) :
  NoDup (map fst (delays_by key ps)).
Proof.
  unfold delays_by. change (fun d entity => dc_update (key entity) (risk_level entity) d)
    with (dc_step_of key).
  apply delays_fold_NoDup. constructor.
Qed.

(** The area-wise and category-wise loops leave one counter per key that
    occurs among the entities, holding exactly the number of critical,
    warning and all entities with that key; a key that does not occur is
    missing. *)
Theorem delays_by_counts :
  forall (key : EntityPattern -> string) (ps : list EntityPattern) (k : string),
    NoDup (map fst (delays_by key ps)) /\
    dc_lookup k (delays_by key ps)
    = (if existsb (fun e => String.eqb (key e) k) ps
       then Some (counter_of key k ps)
       else None) /\
    (forall c, dc_lookup k (delays_by key ps) = Some c ->
               (dc_critical c + dc_warning c <= dc_total c)%nat /\ (1 <= dc_total c)%nat).
Proof.
  intros key ps k.
  assert (Hl : dc_lookup k (delays_by key ps)
               = (if existsb (fun e => String.eqb (key e) k) ps
                  then Some (counter_of key k ps) else None)).
  { unfold delays_by. change (fun d entity => dc_update (key entity) (risk_level entity) d)
      with (dc_step_of key).
    rewrite delays_fold_lookup. cbn [dc_lookup dc_default].
    rewrite dc_plus_zero_l. reflexivity. }
  split; [|split; [exact Hl|]].
  - unfold delays_by. change (fun d entity => dc_update (key entity) (risk_level entity) d)
      with (dc_step_of key).
    apply delays_fold_NoDup. constructor.
  - intros c Hc. rewrite Hl in Hc.
    destruct (existsb (fun e => String.eqb (key e) k) ps) eqn:Eex; [|discriminate].
    injection Hc as <-. unfold counter_of. cbn.
    set (ms := filter (fun e => String.eqb (key e) k) ps).
    pose proof (count_risk_partition ms).
    split; [lia|].
    apply existsb_exists in Eex. destruct Eex as [e [He1 He2]].
    assert (Hin : In e ms) by (apply filter_In; split; assumption).
    destruct ms; [contradiction | simpl; lia].
Qed.

(** ** Rankings *)

Section SortedDescFacts.
Context {A : Type} (key : A -> nat).

Lemma insert_desc_perm (x : A) (xs : list A) : Permutation (insert_desc key x xs) (x :: xs).
Proof.
  induction xs as [|y ys IH]; simpl; [apply Permutation_refl|].
  destruct (key y <=? key x)%nat; [apply Permutation_refl|].
  apply perm_trans with (y :: x :: ys); [apply perm_skip; exact IH | apply perm_swap].
Qed.

Lemma sorted_desc_perm (xs : list A) : Permutation (sorted_desc key xs) xs.
Proof.
  induction xs as [|x xs IH]; simpl; [apply perm_nil|].
  apply perm_trans with (x :: sorted_desc key xs);
    [apply insert_desc_perm | apply perm_skip; exact IH].
Qed.

Lemma insert_desc_sorted (x : A) (xs : list A) :
  StronglySorted (key_ge key) xs -> StronglySorted (key_ge key) (insert_desc key x xs).
Proof.
  induction 1 as [|y ys Hs IH Hall]; simpl.
  - constructor; constructor.
  - destruct (Nat.leb_spec (key y) (key x)) as [Hle|Hgt].
    + constructor; [constructor; assumption|].
      constructor; [exact Hle|].
      apply Forall_forall. intros z Hz.
      rewrite Forall_forall in Hall. specialize (Hall z Hz).
      unfold key_ge in *. lia.
    + constructor; [exact IH|].
      apply Forall_forall. intros z Hz.
      apply (Permutation_in _ (insert_desc_perm x ys)) in Hz.
      destruct Hz as [<-|Hz]; [unfold key_ge; lia|].
      rewrite Forall_forall in Hall. apply Hall. exact Hz.
Qed.

Lemma sorted_desc_sorted (xs : list A) : StronglySorted (key_ge key) (sorted_desc key xs).
Proof.
  induction xs as [|x xs IH]; simpl; [constructor|].
  apply insert_desc_sorted. exact IH.
Qed.

Lemma sorted_app_split (R : A -> A -> Prop) (l1 l2 : list A) :
  StronglySorted R (l1 ++ l2) ->
  StronglySorted R l1 /\ (forall x y, In x l1 -> In y l2 -> R x y).
Proof.
  induction l1 as [|a l1 IH]; simpl; intros H.
  - split; [constructor | intros x y []].
  - inversion H as [|? ? Hs Hall]; subst. destruct (IH Hs) as [H1 H2].
    split.
    + constructor; [exact H1|].
      apply Forall_forall. intros z Hz. rewrite Forall_forall in Hall.
      apply Hall. apply in_or_app. left. exact Hz.
    + intros x y [<-|Hx] Hy.
      * rewrite Forall_forall in Hall. apply Hall. apply in_or_app. right. exact Hy.
      * apply H2; assumption.
Qed.

(** The first [n] of a descending sort are a top [n]: sorted, as many as
    asked for when there are that many, and no element left out has a larger
    key than an element taken. *)
Lemma top_of_sorted_desc (n : nat) (xs : list A) :
  let top := firstn n (sorted_desc key xs) in
  let rest := skipn n (sorted_desc key xs) in
  Permutation (top ++ rest) xs /\
  length top = Nat.min n (length xs) /\
  StronglySorted (key_ge key) top /\
  (forall x y, In x top -> In y rest -> (key y <= key x)%nat).
Proof.
  cbv zeta.
  pose proof (sorted_desc_sorted xs) as Hs.
  rewrite <- (firstn_skipn n (sorted_desc key xs)) in Hs.
  apply sorted_app_split in Hs. destruct Hs as [H1 H2].
  split; [rewrite firstn_skipn; apply sorted_desc_perm|].
  split.
  - rewrite length_firstn, (Permutation_length (sorted_desc_perm xs)). reflexivity.
  - split; [exact H1 | exact H2].
Qed.
End SortedDescFacts.

(** The high-risk areas and categories are a top-N of the per-key counters
    by critical count: N keys when there are that many, each listed once,
    in order of non-increasing critical count, and no key left out has more
    critical entities than a key listed. *)
Theorem high_risk_is_top_n :
  forall (key : EntityPattern -> string) (ps : list EntityPattern) (n : nat),
    let d := delays_by key ps in
    exists top rest,
      Permutation (top ++ rest) d /\
      high_risk n d = map fst top /\
      length (high_risk n d) = Nat.min n (length d) /\
      NoDup (high_risk n d) /\
      StronglySorted (key_ge critical_count) top /\
      (forall x y, In x top -> In y rest -> (critical_count y <= critical_count x)%nat).
Proof.
  intros key ps n d.
  pose proof (top_of_sorted_desc critical_count n d) as H. cbv zeta in H.
  destruct H as [Hp [Hl [Hs Ht]]].
  exists (firstn n (sorted_desc critical_count d)),
         (skipn n (sorted_desc critical_count d)).
  assert (He : high_risk n d = map fst (firstn n (sorted_desc critical_count d))).
  { unfold high_risk. rewrite firstn_map. reflexivity. }
  split; [exact Hp|]. split; [exact He|].
  split; [rewrite He, length_map; exact Hl|].
  split; [|split; [exact Hs | exact Ht]].
  rewrite He.
  assert (Hnd : NoDup (map fst d)) by apply delays_by_NoDup.
  apply (Permutation_NoDup (Permutation_sym (Permutation_map fst Hp))) in Hnd.
  rewrite map_app in Hnd. apply NoDup_app_remove_r in Hnd. exact Hnd.
Qed.

(** ** The capacity forecast *)

Lemma horizon_In (i : Z) : In i horizon <-> 1 <= i <= 30.
Proof.
  unfold horizon. rewrite in_map_iff. split.
  - intros [n [<- Hn]]. apply in_seq in Hn. lia.
  - intros H. exists (Z.to_nat i). split; [lia|]. apply in_seq. lia.
Qed.

Lemma strftime_future_date (i : Z) : strftime_ymd (future_date i) = reference_day + i.
Proof.
  unfold strftime_ymd, future_date, to_datetime, timedelta.
  rewrite <- inject_Z_plus. apply Qfloor_Z.
Qed.

Lemma contribution_le_3 (e : EntityPattern) : (contribution e <= 3)%nat.
Proof.
  rewrite contribution_matched_days.
  rewrite (filter_ext _ _ (due_near_window e)).
  apply window_length. apply horizon_NoDup.
Qed.

Lemma list_sum_le_const (c : nat) (xs : list nat) :
  Forall (fun x => (x <= c)%nat) xs -> (list_sum xs <= c * length xs)%nat.
Proof.
  induction 1 as [|x xs Hx _ IH]; [simpl; lia|].
  cbn [list_sum fold_right length].
  change (fold_right Nat.add 0%nat xs) with (list_sum xs). lia.
Qed.

Lemma daily_capacity_needed_length (es : list EntityPattern) :
  length (daily_capacity_needed es) = 30%nat.
Proof. unfold daily_capacity_needed. rewrite length_map. reflexivity. Qed.

(** The forecast has one entry for each of the 30 days after 2023-04-10, in
    date order; no day counts more collections than there are entities, and
    the 30 counts together are at most three per entity. *)
Theorem forecast_shape :
  forall es : list EntityPattern,
    map fst (daily_capacity_needed es) = map (fun i => reference_day + i) horizon /\
    length (daily_capacity_needed es) = 30%nat /\
    Forall (fun d => (snd d <= length es)%nat) (daily_capacity_needed es) /\
    (list_sum (map snd (daily_capacity_needed es)) <= 3 * length es)%nat.
Proof.
  intros es. unfold daily_capacity_needed at 1 2 3.
  split; [|split; [|split]].
  - rewrite map_map. apply map_ext. intros i. cbn [fst]. apply strftime_future_date.
  - rewrite length_map. reflexivity.
  - apply Forall_forall. intros d Hd. apply in_map_iff in Hd.
    destruct Hd as [i [<- _]]. cbn [snd]. unfold collections_needed.
    apply filter_length_le.
  - rewrite forecast_total_contributions.
    rewrite <- (length_map contribution es).
    apply list_sum_le_const. apply Forall_forall. intros c Hc.
    apply in_map_iff in Hc. destruct Hc as [e [<- _]]. apply contribution_le_3.
Qed.

(** An entity whose expected next collection lies a full day or more before
    the reference date, or more than a day beyond day 30, is on no forecast
    day; one expected on days 2 to 29 is counted on exactly three days. *)
Theorem forecast_window :
  forall e : EntityPattern,
    (contribution e = 0%nat <-> 1 <= days_past_expected e \/ days_past_expected e <= -32) /\
    (contribution e = 3%nat <-> -29 <= days_past_expected e <= -2).
Proof.
  intros e. rewrite contribution_matched_days.
  rewrite (filter_ext _ _ (due_near_window e)). cbv zeta.
  fold (days_past_expected e). set (f := days_past_expected e).
  set (hit := fun i : Z => Z.abs (i + f) <=? 1).
  assert (Hin : forall i, In i (filter hit horizon) <-> 1 <= i <= 30 /\ Z.abs (i + f) <= 1).
  { intros i. rewrite filter_In, horizon_In. unfold hit. rewrite Z.leb_le. tauto. }
  assert (Hnd : NoDup (filter hit horizon)) by (apply NoDup_filter, horizon_NoDup).
  assert (Hincl : incl (filter hit horizon) [-1 - f; - f; 1 - f]).
  { intros i Hi. apply Hin in Hi. cbn [In]. lia. }
  assert (Hnd3 : NoDup [-1 - f; - f; 1 - f]).
  { repeat constructor; cbn [In]; lia. }
  split; split.
  - intros H0. destruct (filter hit horizon) as [|i l] eqn:E; [|discriminate].
    assert (Hnone : forall i, ~ (1 <= i <= 30 /\ Z.abs (i + f) <= 1)).
    { intros i Hi. apply Hin in Hi. exact Hi. }
    destruct (Z_le_gt_dec 1 f) as [?|?]; [left; assumption|].
    destruct (Z_le_gt_dec f (-32)) as [?|?]; [right; assumption|].
    exfalso.
    destruct (Z.eq_dec f 0) as [?|?]; [apply (Hnone 1); lia|].
    destruct (Z.eq_dec f (-31)) as [?|?]; [apply (Hnone 30); lia|].
    apply (Hnone (- f)); lia.
  - intros Hf. destruct (filter hit horizon) as [|i l] eqn:E; [reflexivity|].
    exfalso. assert (Hi : In i (i :: l)) by (left; reflexivity).
    apply Hin in Hi. lia.
  - intros H3.
    assert (Hback : incl [-1 - f; - f; 1 - f] (filter hit horizon)).
    { apply NoDup_length_incl; [exact Hnd | rewrite H3; simpl; lia | exact Hincl]. }
    assert (H1 : In (-1 - f) (filter hit horizon)) by (apply Hback; cbn [In]; auto).
    assert (H2 : In (1 - f) (filter hit horizon)) by (apply Hback; cbn [In]; auto).
    apply Hin in H1, H2. lia.
  - intros Hf. apply Nat.le_antisymm.
    + change 3%nat with (length [-1 - f; - f; 1 - f]).
      apply NoDup_incl_length; assumption.
    + change 3%nat with (length [-1 - f; - f; 1 - f]).
      apply NoDup_incl_length; [exact Hnd3|].
      intros i Hi. apply Hin. cbn [In] in Hi. lia.
Qed.

Lemma generate_predictive_patterns_record (df : DataFrame) (patterns : Patterns)
    (r : Predictive.t) :
  generate_predictive_patterns df patterns = Ok r ->
  let ps := entities patterns in
  Predictive.critical_hotspots r = map hotspot_of (firstn 20 (filter (has_risk critical) ps)) /\
  Predictive.warning_trends r = count_risk warning ps /\
  Predictive.provider_workload_forecast r
  = map (provider_workload df ps) (unique String.eqb (map Service_Provider df)) /\
  Predictive.next_30_days_forecast r = daily_capacity_needed ps /\
  Predictive.peak_demand_days r = firstn 10 (sorted_desc snd (daily_capacity_needed ps)).
Proof.
  unfold generate_predictive_patterns.
  destruct (py_div _ _) as [q|e]; cbn [bind]; [|discriminate].
  intros H.
  apply (f_equal (fun x => match x with Ok a => a | Raise _ => r end)) in H.
  cbv beta iota in H. rewrite <- H.
  cbn [Predictive.critical_hotspots Predictive.warning_trends
       Predictive.provider_workload_forecast Predictive.next_30_days_forecast
       Predictive.peak_demand_days].
  split; [reflexivity|]. split; [reflexivity|]. split; [reflexivity|].
  split; reflexivity.
Qed.

(** Whenever the predictive patterns are returned, the peak demand days are
    ten entries of the 30-day forecast in order of non-increasing count, and
    no forecast day left out has a higher count than a day listed. *)
Theorem peak_demand_days_top_ten :
  forall (df : DataFrame) (patterns : Patterns) (r : Predictive.t),
    generate_predictive_patterns df patterns = Ok r ->
    exists rest,
      Permutation (Predictive.peak_demand_days r ++ rest)
                  (Predictive.next_30_days_forecast r) /\
      length (Predictive.peak_demand_days r) = 10%nat /\
      StronglySorted (key_ge forecast_count) (Predictive.peak_demand_days r) /\
      (forall x y, In x (Predictive.peak_demand_days r) -> In y rest ->
                   (forecast_count y <= forecast_count x)%nat).
Proof.
  intros df patterns r H.
  apply generate_predictive_patterns_record in H. cbv zeta in H.
  destruct H as [_ [_ [_ [Hf Hp]]]].
  pose proof (top_of_sorted_desc forecast_count 10
                (daily_capacity_needed (entities patterns))) as Ht.
  cbv zeta in Ht. destruct Ht as [H1 [H2 [H3 H4]]].
  exists (skipn 10 (sorted_desc forecast_count (daily_capacity_needed (entities patterns)))).
  rewrite Hf, Hp.
  split; [exact H1|]. split; [|split; [exact H3 | exact H4]].
  change (sorted_desc snd) with (sorted_desc forecast_count).
  rewrite H2, daily_capacity_needed_length. reflexivity.
Qed.

Lemma peak_demand_days_top_ten_witness :
  exists r,
    generate_predictive_patterns df_two_critical
      (calculate_collection_patterns df_two_critical) = Ok r /\
    exists rest,
      Permutation (Predictive.peak_demand_days r ++ rest)
                  (Predictive.next_30_days_forecast r) /\
      length (Predictive.peak_demand_days r) = 10%nat /\
      StronglySorted (key_ge forecast_count) (Predictive.peak_demand_days r) /\
      (forall x y, In x (Predictive.peak_demand_days r) -> In y rest ->
                   (forecast_count y <= forecast_count x)%nat).
Proof.
  eexists. split.
  - vm_compute. reflexivity.
  - apply (peak_demand_days_top_ten df_two_critical
             (calculate_collection_patterns df_two_critical)).
    vm_compute. reflexivity.
Defined.

(** ** Provider workloads *)

Lemma filter_split_length {A : Type} (f g : A -> bool) (xs : list A) :
  (forall x, In x xs -> f x = negb (g x)) ->
  (length (filter f xs) + length (filter g xs) = length xs)%nat.
Proof.
  induction xs as [|x xs IH]; intros H; [reflexivity|].
  cbn [filter]. rewrite (H x (or_introl eq_refl)).
  assert (IH' := IH (fun y Hy => H y (or_intror Hy))).
  destruct (g x); cbn [negb length]; lia.
Qed.

Lemma reported_days_nonneg (df : DataFrame) (p : EntityPattern) :
  In p (entities (calculate_collection_patterns df)) -> 0 <= days_overdue p.
Proof.
  intros Hp. apply entity_patterns_In in Hp. destruct Hp as [tl [_ Hp]].
  apply entity_pattern_fields in Hp.
  destruct Hp as [last_row [_ [_ [_ [_ [_ [_ [_ [Ho _]]]]]]]]]. lia.
Qed.

(** On the patterns of a frame, whose days_overdue is clamped at 0, the
    upcoming-week estimate of a provider counts every entity it manages that
    is not overdue: estimate and overdue count add up to the managed
    entities; a provider that manages none gets the interval 14. *)
Theorem provider_workload_split :
  forall (df : DataFrame) (provider : string),
    let w := snd (provider_workload df (entities (calculate_collection_patterns df)) provider) in
    (Workload.upcoming_week_estimate w + Workload.overdue_collections w
     = Workload.total_managed_entities w)%nat /\
    (Workload.total_managed_entities w = 0%nat -> Workload.avg_entity_interval w = 14%Q).
Proof.
  intros df provider. cbv zeta. unfold provider_workload. cbn [snd].
  cbn [Workload.upcoming_week_estimate Workload.overdue_collections
       Workload.total_managed_entities Workload.avg_entity_interval].
  set (managed := filter _ (entities (calculate_collection_patterns df))).
  split.
  - apply filter_split_length. intros e He.
    assert (H0 : 0 <= days_overdue e).
    { apply (reported_days_nonneg df). unfold managed in He.
      apply filter_In in He. destruct He as [He _]. exact He. }
    destruct (Z.ltb_spec 0 (days_overdue e)), (Z.ltb_spec (-7) (days_overdue e)),
      (Z.leb_spec (days_overdue e) 0); cbn; try reflexivity; lia.
  - intros Hz. destruct managed; [reflexivity | discriminate].
Qed.

(** ** Agreement between the sections of the insights *)

Lemma high_risk_count (ps : list EntityPattern) :
  length (filter (fun e => has_risk critical e || has_risk warning e) ps)
  = (count_risk critical ps + count_risk warning ps)%nat.
Proof.
  unfold count_risk, has_risk.
  induction ps as [|p ps IH]; [reflexivity|].
  cbn [filter]. destruct (risk_level p); cbn [risk_eqb orb length]; lia.
Qed.

Lemma generate_entity_intelligence_record (df : DataFrame) (patterns : Patterns)
    (r : Intel.t) :
  generate_entity_intelligence df patterns = Ok r ->
  let ps := entities patterns in
  mapM (category_behavior df ps) (unique String.eqb (map Category df))
  = Ok (Intel.category_behavior_patterns r) /\
  Intel.total_entities_analyzed r = length ps /\
  Intel.high_risk_entities r
  = length (filter (fun e => has_risk critical e || has_risk warning e) ps) /\
  Intel.entities_needing_attention r = length (filter (fun e => 5 <? days_overdue e) ps).
Proof.
  unfold generate_entity_intelligence.
  destruct (mapM _ _) as [bs|e]; cbn [bind]; [|discriminate].
  intros H. injection H as <-.
  cbn [Intel.category_behavior_patterns Intel.total_entities_analyzed
       Intel.high_risk_entities Intel.entities_needing_attention].
  repeat split.
Qed.

(** Whenever the insights are built, their sections agree: the entity
    intelligence and the delay analysis report the same number of entities
    and of high-risk entities, the warning trend is the warning count of the
    risk summary, and the critical hotspots are the entities of the critical
    alerts, in the same order. *)
Theorem insights_sections_agree :
  forall (df : DataFrame) (patterns : Patterns) (ins : Insights.t),
    generate_pie_insights df patterns = Ok ins ->
    let delays := Insights.delays_alerts_analysis ins in
    let intel := Insights.entity_intelligence ins in
    let predictive := Insights.predictive_patterns ins in
    Intel.total_entities_analyzed intel = Delays.total_entities_analyzed delays /\
    Intel.high_risk_entities intel = Delays.entities_with_delays delays /\
    Predictive.warning_trends predictive = risk_count (Delays.risk_summary delays) warning /\
    map Hotspot.outlet (Predictive.critical_hotspots predictive)
    = map Alert.outlet_name (Delays.critical_alerts delays) /\
    map Hotspot.days_overdue (Predictive.critical_hotspots predictive)
    = map Alert.days_overdue (Delays.critical_alerts delays).
Proof.
  intros df patterns ins. unfold generate_pie_insights.
  destruct (generate_delays_analysis patterns) as [d|] eqn:Ed; cbn [bind]; [|discriminate].
  destruct (generate_entity_intelligence df patterns) as [i|] eqn:Ei; cbn [bind];
    [|discriminate].
  destruct (generate_predictive_patterns df patterns) as [p|] eqn:Ep; cbn [bind];
    [|discriminate].
  intros H. injection H as <-. cbn.
  pose proof (generate_delays_analysis_Ok _ _ Ed) as [_ [_ [Ha _]]].
  apply generate_delays_analysis_record in Ed. cbv zeta in Ed.
  destruct Ed as [_ [Hs [_ [_ [_ [_ [Ht [Hd _]]]]]]]].
  apply generate_entity_intelligence_record in Ei. cbv zeta in Ei.
  destruct Ei as [_ [Hit [Hih _]]].
  apply generate_predictive_patterns_record in Ep. cbv zeta in Ep.
  destruct Ep as [Hh [Hw _]].
  rewrite Hit, Ht, Hih, Hd, Hw, Hs, Hh, Ha.
  repeat split.
  - apply high_risk_count.
  - unfold critical_alerts_of. rewrite !map_map. reflexivity.
  - unfold critical_alerts_of. rewrite !map_map. reflexivity.
Qed.

Lemma insights_sections_agree_witness :
  exists ins,
    generate_pie_insights df_two_critical (calculate_collection_patterns df_two_critical)
    = Ok ins /\
    let delays := Insights.delays_alerts_analysis ins in
    let intel := Insights.entity_intelligence ins in
    let predictive := Insights.predictive_patterns ins in
    Intel.total_entities_analyzed intel = Delays.total_entities_analyzed delays /\
    Intel.high_risk_entities intel = Delays.entities_with_delays delays /\
    Predictive.warning_trends predictive = risk_count (Delays.risk_summary delays) warning /\
    map Hotspot.outlet (Predictive.critical_hotspots predictive)
    = map Alert.outlet_name (Delays.critical_alerts delays) /\
    map Hotspot.days_overdue (Predictive.critical_hotspots predictive)
    = map Alert.days_overdue (Delays.critical_alerts delays).
Proof.
  eexists. split.
  - vm_compute. reflexivity.
  - apply (insights_sections_agree df_two_critical
             (calculate_collection_patterns df_two_critical)).
    vm_compute. reflexivity.
Defined.

(** On the patterns of a frame, the entities needing attention (more than 5
    days overdue) are exactly the high-risk entities (warning or critical):
    the two counts of the intelligence summary coincide. *)
Theorem attention_is_high_risk :
  forall (df : DataFrame) (r : Intel.t),
    generate_entity_intelligence df (calculate_collection_patterns df) = Ok r ->
    Intel.entities_needing_attention r = Intel.high_risk_entities r.
Proof.
  intros df r H.
  apply generate_entity_intelligence_record in H. cbv zeta in H.
  destruct H as [_ [_ [Hh Ha]]]. rewrite Hh, Ha. f_equal.
  apply filter_ext_in. intros e He.
  pose proof (risk_level_reported df e He) as Hr.
  unfold has_risk. rewrite Hr. unfold get_risk_level.
  destruct (Z.leb_spec (days_overdue e) 0), (Z.leb_spec (days_overdue e) 5),
    (Z.leb_spec (days_overdue e) 10), (Z.ltb_spec 5 (days_overdue e));
    cbn; try reflexivity; lia.
Qed.

Lemma attention_is_high_risk_witness :
  exists r,
    generate_entity_intelligence df_two_critical
      (calculate_collection_patterns df_two_critical) = Ok r /\
    Intel.entities_needing_attention r = Intel.high_risk_entities r.
Proof.
  eexists. split.
  - vm_compute. reflexivity.
  - apply (attention_is_high_risk df_two_critical). vm_compute. reflexivity.
Defined.

(** ** Category and area patterns *)

Lemma group_entity_intervals_in_range (group_data : DataFrame) (id : string) :
  Forall (fun g => 1 <= g <= 120) (group_entity_intervals group_data id).
Proof.
  unfold group_entity_intervals.
  destruct (2 <=? _)%nat; [apply valid_intervals_in_range | constructor].
Qed.

Lemma mean_or_14_bounds (intervals : list Z) :
  Forall (fun g => 1 <= g <= 120) intervals ->
  (1 <= mean_or_14 intervals <= 120)%Q.
Proof.
  intros H. unfold mean_or_14. destruct intervals as [|g gs] eqn:E.
  - split; discriminate.
  - apply (round1_bounds 1 120). apply np_mean_bounds; [discriminate | exact H].
Qed.

(** The interval reported for a category or an area always lies between 1
    and 120 days, whether it is a mean of kept gaps or the default 14. *)
Theorem group_interval_bounds :
  forall (df : DataFrame) (key : string),
    (1 <= Cat.avg_interval_days (category_pattern df key) <= 120)%Q /\
    (1 <= Geo.avg_interval_days (geographic_pattern df key) <= 120)%Q.
Proof.
  intros df key. split; cbn; apply mean_or_14_bounds.
  - unfold calculate_category_intervals. apply Forall_flat_map.
    apply Forall_forall. intros id _. apply group_entity_intervals_in_range.
  - unfold calculate_area_intervals. apply Forall_flat_map.
    apply Forall_forall. intros id _. apply group_entity_intervals_in_range.
Qed.

(** ** Loading the first quarter *)

Lemma Qfloor_bounds (a b : Z) (x : Q) :
  (inject_Z a <= x <= inject_Z b)%Q -> a <= Qfloor x <= b.
Proof.
  intros [H1 H2]. apply Qfloor_resp_le in H1, H2. rewrite Qfloor_Z in H1, H2. lia.
Qed.

Lemma collect_length {A B : Type} (f : A -> option B) (xs : list A) :
  (length (collect f xs) <= length xs)%nat.
Proof.
  induction xs as [|x xs IH]; [apply Nat.le_refl|].
  cbn [collect length]. destruct (f x); cbn [length]; lia.
Qed.

Lemma load_In (rows : list CsvRow) (e : CollectionEvent) :
  In e (load_q1_2023_data rows) <->
  exists r t, In r rows /\ csv_Collected_Date r = Some t /\
              (q1_2023_start <= t <= q1_2023_end)%Q /\
              e = event_of_row r t.
Proof.
  unfold load_q1_2023_data. rewrite collect_In. split.
  - intros [r [Hr Hf]]. destruct (csv_Collected_Date r) as [t|] eqn:Et; [|discriminate].
    cbn [in_q1_2023] in Hf.
    destruct (Qle_bool q1_2023_start t && Qle_bool t q1_2023_end) eqn:Ew; [|discriminate].
    injection Hf as <-. apply andb_prop in Ew. destruct Ew as [H1 H2].
    apply Qle_bool_iff in H1, H2. exists r, t. repeat split; assumption.
  - intros [r [t [Hr [Et [[H1 H2] ->]]]]]. exists r. split; [exact Hr|].
    rewrite Et. cbn [in_q1_2023].
    apply Qle_bool_iff in H1, H2. rewrite H1, H2. reflexivity.
Qed.

Lemma load_window (rows : list CsvRow) : Forall in_q1_window (load_q1_2023_data rows).
Proof.
  apply Forall_forall. intros e He. apply load_In in He.
  destruct He as [r [t [_ [_ [Hw ->]]]]]. exact Hw.
Qed.

(** The loader keeps exactly the rows whose collection date parses and lies
    between 2023-01-01 and the midnight that begins 2023-03-31: every loaded
    event is in that window, and every such row is loaded. *)
Theorem load_keeps_q1_rows :
  forall rows : list CsvRow,
    Forall in_q1_window (load_q1_2023_data rows) /\
    (forall e, In e (load_q1_2023_data rows) <->
               exists r t, In r rows /\ csv_Collected_Date r = Some t /\
                           (q1_2023_start <= t <= q1_2023_end)%Q /\
                           e = event_of_row r t) /\
    (length (load_q1_2023_data rows) <= length rows)%nat.
Proof.
  intros rows. split; [apply load_window|].
  split; [intros e; apply load_In | apply collect_length].
Qed.

Lemma gaps_window (a b : Z) (dates : list Timestamp) :
  Forall (fun t => (inject_Z a <= t <= inject_Z b)%Q) dates ->
  Forall (fun g => g <= b - a) (gaps dates).
Proof.
  induction 1 as [|prev rest Hp Hall IH]; [constructor|].
  destruct rest as [|cur rest']; [constructor|].
  change (gaps (prev :: cur :: rest'))
    with (days (cur - prev)%Q :: gaps (cur :: rest')).
  constructor; [|exact IH].
  inversion Hall as [|? ? Hc _]; subst.
  unfold days. rewrite <- (Qfloor_Z (b - a)). apply Qfloor_resp_le.
  unfold Z.sub. rewrite inject_Z_plus, inject_Z_opp. lra.
Qed.

(** On the rows the loader returns, every pattern has its last collection in
    the first quarter, hence between 10 and 99 days before the reference
    date; its mean interval is at most 89 days (the cap of 120 days never
    applies) and it reports at most 98 days overdue. *)
Theorem loaded_pattern_bounds :
  forall (rows : list CsvRow) (p : EntityPattern),
    In p (entities (calculate_collection_patterns (load_q1_2023_data rows))) ->
    19358 <= last_collection_date p <= 19447 /\
    10 <= days_since_last p <= 99 /\
    (1 <= avg_interval_days p <= 89)%Q /\
    0 <= days_overdue p <= 98.
Proof.
  intros rows p Hp.
  set (df := load_q1_2023_data rows) in *.
  pose proof (load_window rows) as Hwin. fold df in Hwin.
  apply entity_patterns_In in Hp. destruct Hp as [tl [_ Hp]].
  assert (Hdata : Forall in_q1_window (entity_data_of df tl)).
  { apply Forall_forall. intros e He. unfold entity_data_of in He.
    apply (proj1 (sort_values_by_date_In _ _)) in He. apply filter_In in He.
    rewrite Forall_forall in Hwin. apply Hwin. apply He. }
  apply entity_pattern_fields in Hp.
  destruct Hp as [last_row [Hlast [_ [Hne [_ [Havg [Hd [Hs [Ho _]]]]]]]]].
  pose proof (raw_days_overdue_bounds _ last_row Hne) as Hraw.
  assert (Hlw : in_q1_window last_row).
  { rewrite Forall_forall in Hdata. apply Hdata. exact Hlast. }
  unfold in_q1_window, q1_2023_start, q1_2023_end in Hlw.
  assert (Hsince : 10 <= days (reference_date - Collected_Date last_row)%Q <= 99).
  { apply Qfloor_bounds. unfold reference_date, reference_day.
    destruct Hlw as [H1 H2]. unfold inject_Z in *. split; lra. }
  split; [rewrite Hd; apply Qfloor_bounds; exact Hlw|].
  split; [rewrite Hs; exact Hsince|].
  split; [|lia].
  rewrite Havg. apply (round1_bounds 1 89). apply np_mean_bounds; [exact Hne|].
  assert (Hg : Forall (fun g => g <= 19447 - 19358)
                      (gaps (map Collected_Date (entity_data_of df tl)))).
  { apply gaps_window. apply Forall_forall. intros t Ht.
    apply in_map_iff in Ht. destruct Ht as [e [<- He]].
    rewrite Forall_forall in Hdata. apply (Hdata e He). }
  apply Forall_forall. intros g Hin.
  pose proof (valid_intervals_in_range (map Collected_Date (entity_data_of df tl))) as Hr.
  rewrite Forall_forall in Hr. specialize (Hr g Hin).
  rewrite valid_intervals_filter in Hin. apply filter_In in Hin. destruct Hin as [Hin _].
  rewrite Forall_forall in Hg. specialize (Hg g Hin). lia.
Qed.

Lemma loaded_pattern_bounds_witness :
  load_q1_2023_data csv_sample = df_monthly /\
  In pattern_monthly (entities (calculate_collection_patterns (load_q1_2023_data csv_sample))) /\
  19358 <= last_collection_date pattern_monthly <= 19447 /\
  10 <= days_since_last pattern_monthly <= 99 /\
  (1 <= avg_interval_days pattern_monthly <= 89)%Q /\
  0 <= days_overdue pattern_monthly <= 98.
Proof.
  split; [reflexivity|]. split.
  - left. reflexivity.
  - apply (loaded_pattern_bounds csv_sample pattern_monthly). left. reflexivity.
Defined.

(** ** Volume distributions *)

Ltac q_split g cs tac :=
  lazymatch cs with
  | nil => tac
  | cons ?c ?cs' => destruct (Qlt_le_dec g c); [tac | q_split g cs' tac]
  end.

Ltac q_decide :=
  repeat match goal with
  | |- context [Qle_bool ?a ?b] =>
      first
        [ replace (Qle_bool a b) with true
            by (symmetry; apply Qle_bool_iff; lra)
        | replace (Qle_bool a b) with false
            by (symmetry; apply not_true_is_false;
                let Hc := fresh in intros Hc; apply Qle_bool_iff in Hc; lra) ]
  end.

Lemma length_filter_cons {A : Type} (f : A -> bool) (x : A) (xs : list A) :
  length (filter f (x :: xs)) = (indicator (f x) + length (filter f xs))%nat.
Proof. cbn [filter]. destruct (f x); reflexivity. Qed.

(** Every volume is taken by exactly one range or by none. *)
Lemma volume_hits (g : Q) :
  (indicator (volume_mask 0 (Some 15%Q) g)
   + indicator (volume_mask 16 (Some 25%Q) g)
   + indicator (volume_mask 26 (Some 50%Q) g)
   + indicator (volume_mask 51 (Some 100%Q) g)
   + indicator (volume_mask 101 (Some 200%Q) g)
   + indicator (volume_mask 201 (Some 500%Q) g)
   + indicator (volume_mask 501 None g)
   + indicator (volume_uncovered g) = 1)%nat.
Proof.
  unfold volume_mask, volume_uncovered, Qlt_bool.
  q_split g (0 :: 15 :: 16 :: 25 :: 26 :: 50 :: 51 :: 100 :: 101 :: 200 :: 201
               :: 500 :: 501 :: nil)%Q ltac:(q_decide; reflexivity).
Qed.

Lemma eda_volume_hits (g : Q) :
  (indicator (eda_volume_mask 0 (Some 10%Q) g)
   + indicator (eda_volume_mask 11 (Some 25%Q) g)
   + indicator (eda_volume_mask 26 (Some 50%Q) g)
   + indicator (eda_volume_mask 51 (Some 100%Q) g)
   + indicator (eda_volume_mask 101 (Some 200%Q) g)
   + indicator (eda_volume_mask 201 (Some 500%Q) g)
   + indicator (eda_volume_mask 501 None g)
   + indicator (eda_volume_uncovered g) = 1)%nat.
Proof.
  unfold eda_volume_mask, eda_volume_uncovered, Qlt_bool.
  q_split g (0 :: 10 :: 11 :: 25 :: 26 :: 50 :: 51 :: 100 :: 101 :: 200 :: 201
               :: 500 :: 501 :: nil)%Q ltac:(q_decide; reflexivity).
Qed.

Lemma volume_counts_total (gallons : list Q) :
  (list_sum (map bucket_count (map (volume_bucket gallons) volume_ranges))
   + length (filter volume_uncovered gallons) = length gallons)%nat.
Proof.
  change (list_sum (map bucket_count (map (volume_bucket gallons) volume_ranges)))
    with (length (filter (volume_mask 0 (Some 15%Q)) gallons)
          + (length (filter (volume_mask 16 (Some 25%Q)) gallons)
             + (length (filter (volume_mask 26 (Some 50%Q)) gallons)
                + (length (filter (volume_mask 51 (Some 100%Q)) gallons)
                   + (length (filter (volume_mask 101 (Some 200%Q)) gallons)
                      + (length (filter (volume_mask 201 (Some 500%Q)) gallons)
                         + (length (filter (volume_mask 501 None) gallons) + 0)))))))%nat.
  induction gallons as [|g gs IH]; [reflexivity|].
  rewrite !length_filter_cons. pose proof (volume_hits g). cbn [length]. lia.
Qed.

Lemma generate_volume_analysis_cases (df : DataFrame) :
  let gallons := dropna (map Sum_of_Gallons_Collected df) in
  (gallons = [] /\ generate_volume_analysis df = Raise ValueError) \/
  (gallons <> [] /\
   exists r, generate_volume_analysis df = Ok r /\
             Volume.volume_distribution r = map (volume_bucket gallons) volume_ranges).
Proof.
  cbv zeta. unfold generate_volume_analysis, series_min, series_max.
  destruct (dropna (map Sum_of_Gallons_Collected df)) as [|v vs].
  - left. split; reflexivity.
  - right. split; [discriminate|]. cbn [py_int bind]. eexists. split; reflexivity.
Qed.

(** The volume analysis fails exactly when no row has a numeric volume, and
    then with ValueError. *)
Theorem volume_analysis_raises_iff_no_volume :
  forall df : DataFrame,
    (generate_volume_analysis df = Raise ValueError <->
     dropna (map Sum_of_Gallons_Collected df) = []) /\
    (forall e, generate_volume_analysis df = Raise e -> e = ValueError) /\
    ((exists r, generate_volume_analysis df = Ok r) <->
     exists row v, In row df /\ Sum_of_Gallons_Collected row = Some v).
Proof.
  intros df.
  destruct (generate_volume_analysis_cases df) as [[Hn Hr]|[Hn [r [Hr _]]]];
    cbv zeta in *; rewrite Hr.
  - repeat split; auto; try congruence.
    + intros [r Hok]. discriminate.
    + intros [row [v [Hrow Hv]]]. exfalso.
      assert (Hin : In v (dropna (map Sum_of_Gallons_Collected df))).
      { apply dropna_In. apply in_map_iff. exists row. split; assumption. }
      rewrite Hn in Hin. destruct Hin.
  - repeat split; try discriminate.
    + intros H. contradiction.
    + intros _. destruct (dropna (map Sum_of_Gallons_Collected df)) as [|v vs] eqn:E;
        [contradiction|].
      assert (Hin : In v (dropna (map Sum_of_Gallons_Collected df)))
        by (rewrite E; left; reflexivity).
      apply dropna_In in Hin. apply in_map_iff in Hin.
      destruct Hin as [row [Hv Hrow]]. exists row, v. split; assumption.
    + intros _. exists r. reflexivity.
Qed.

(** The ranges of the volume distribution leave holes: a volume from an
    upper bound up to the next lower bound (15, 25, 50, 100, 200, 500 among
    them) or below zero is counted in no range, every other volume in
    exactly one; so the counts add up to the number of volumes less those in
    the holes. *)
Theorem volume_distribution_holes :
  forall (df : DataFrame) (r : Volume.t),
    generate_volume_analysis df = Ok r ->
    let gallons := dropna (map Sum_of_Gallons_Collected df) in
    map fst (Volume.volume_distribution r)
    = [ "0-15"; "16-25"; "26-50"; "51-100"; "101-200"; "201-500"; "500+" ]%string /\
    (list_sum (map bucket_count (Volume.volume_distribution r))
     + length (filter volume_uncovered gallons) = length gallons)%nat /\
    Forall (fun g => volume_uncovered g = true) [15; 25; 50; 100; 200; 500]%Q.
Proof.
  intros df r H. cbv zeta.
  destruct (generate_volume_analysis_cases df) as [[_ Hr]|[_ [r' [Hr Hd]]]];
    cbv zeta in *; [congruence|].
  assert (r' = r) by congruence. subst r'. rewrite Hd.
  split; [reflexivity|]. split; [apply volume_counts_total|].
  repeat constructor.
Qed.

Lemma volume_distribution_holes_witness :
  exists r,
    generate_volume_analysis df_monthly = Ok r /\
    let gallons := dropna (map Sum_of_Gallons_Collected df_monthly) in
    map fst (Volume.volume_distribution r)
    = [ "0-15"; "16-25"; "26-50"; "51-100"; "101-200"; "201-500"; "500+" ]%string /\
    (list_sum (map bucket_count (Volume.volume_distribution r))
     + length (filter volume_uncovered gallons) = length gallons)%nat /\
    Forall (fun g => volume_uncovered g = true) [15; 25; 50; 100; 200; 500]%Q.
Proof.
  eexists. split.
  - vm_compute. reflexivity.
  - apply (volume_distribution_holes df_monthly). vm_compute. reflexivity.
Defined.

(** The ranges of the exploratory report leave holes as well, from each
    upper bound up to the next lower bound (10, 25, 50, 100, 200, 500 among
    them): its counts add up to the number of volumes less those in the
    holes. *)
Theorem eda_volume_distribution_holes :
  forall gallons : list Q,
    map fst (eda_volume_counts gallons)
    = [ "0-10"; "11-25"; "26-50"; "51-100"; "101-200"; "201-500"; "500+" ]%string /\
    (list_sum (map snd (eda_volume_counts gallons))
     + length (filter eda_volume_uncovered gallons) = length gallons)%nat /\
    Forall (fun g => eda_volume_uncovered g = true) [10; 25; 50; 100; 200; 500]%Q.
Proof.
  intros gallons. split; [reflexivity|]. split; [|repeat constructor].
  change (list_sum (map snd (eda_volume_counts gallons)))
    with (length (filter (eda_volume_mask 0 (Some 10%Q)) gallons)
          + (length (filter (eda_volume_mask 11 (Some 25%Q)) gallons)
             + (length (filter (eda_volume_mask 26 (Some 50%Q)) gallons)
                + (length (filter (eda_volume_mask 51 (Some 100%Q)) gallons)
                   + (length (filter (eda_volume_mask 101 (Some 200%Q)) gallons)
                      + (length (filter (eda_volume_mask 201 (Some 500%Q)) gallons)
                         + (length (filter (eda_volume_mask 501 None) gallons) + 0)))))))%nat.
  induction gallons as [|g gs IH]; [reflexivity|].
  rewrite !length_filter_cons. pose proof (eda_volume_hits g). cbn [length]. lia.
Qed.

(** ** Which licences get a pattern *)

Lemma valid_intervals_short (dates : list Timestamp) :
  (length dates < 2)%nat -> valid_intervals dates = [].
Proof.
  destruct dates as [|a [|b rest]]; cbn [length]; intros H; try reflexivity; lia.
Qed.

(** ** Rounding to one decimal *)

Lemma rint_close (x : Q) : (Qabs (inject_Z (rint x) - x) <= 1 # 2)%Q.
Proof.
  apply Qabs_Qle_condition.
  pose proof (Qfloor_le x) as Hlo. pose proof (Qlt_floor x) as Hhi.
  rewrite inject_Z_plus in Hhi. change (inject_Z 1) with 1%Q in Hhi.
  unfold rint. cbv zeta.
  destruct (Qcompare_spec (x - inject_Z (Qfloor x)) (1 # 2)) as [He|Hl|Hg].
  - destruct (Z.even (Qfloor x)).
    + split; lra.
    + rewrite inject_Z_plus. change (inject_Z 1) with 1%Q. split; lra.
  - split; lra.
  - rewrite inject_Z_plus. change (inject_Z 1) with 1%Q. split; lra.
Qed.

Lemma round1_close (x : Q) : (Qabs (round1 x - x) <= 1 # 20)%Q.
Proof.
  pose proof (rint_close (x * 10)) as H.
  apply Qabs_Qle_condition in H. apply Qabs_Qle_condition.
  unfold round1. set (r := inject_Z (rint (x * 10))) in *.
  setoid_replace (r / 10)%Q with ((1 # 10) * r)%Q by field.
  split; lra.
Qed.


(** ** Consecutive collections in a sorted frame *)

Lemma days_comp (x y x' y' : Q) :
  (x == x')%Q -> (y == y')%Q -> days (y - x)%Q = days (y' - x')%Q.
Proof. intros Hx Hy. unfold days. apply Qfloor_comp. rewrite Hx, Hy. reflexivity. Qed.

Lemma gap_positive (x y : Q) : 1 <= days (y - x)%Q -> (x < y)%Q.
Proof.
  intros H. pose proof (Qfloor_le (y - x)) as Hf. unfold days in H.
  rewrite Zle_Qle in H. change (inject_Z 1) with 1%Q in H. lra.
Qed.

(** Every positive gap of a sorted frame is the distance between two
    consecutive collections. *)
Lemma gap_is_between (rows : DataFrame) (g : Z) :
  StronglySorted date_le rows ->
  In g (gaps (map Collected_Date rows)) ->
  1 <= g ->
  exists a b, consecutive_collections rows a b /\
              g = days (Collected_Date b - Collected_Date a)%Q.
Proof.
  induction 1 as [|x rows Hs IH Hall]; [intros []|].
  destruct rows as [|y rows']; [intros []|].
  change (gaps (map Collected_Date (x :: y :: rows')))
    with (days (Collected_Date y - Collected_Date x)%Q
          :: gaps (map Collected_Date (y :: rows'))).
  assert (Hxy : date_le x y) by (inversion Hall; assumption).
  assert (Hy : forall c, In c (y :: rows') -> date_le y c).
  { intros c [<-|Hc]; [unfold date_le; apply Qle_refl|].
    inversion Hs as [|? ? _ Hally]; subst. rewrite Forall_forall in Hally.
    apply Hally. exact Hc. }
  unfold date_le in *.
  intros [Hg|Hg] H1.
  - subst g. exists x, y. split; [|reflexivity].
    split; [left; reflexivity|]. split; [right; left; reflexivity|].
    split; [apply gap_positive; exact H1|].
    intros c [<-|Hc] [Ha Hb]; [lra|]. specialize (Hy c Hc). lra.
  - destruct (IH Hg H1) as [a [b [[Ha [Hb [Hlt Hnone]]] He]]].
    exists a, b. split; [|exact He].
    split; [right; exact Ha|]. split; [right; exact Hb|]. split; [exact Hlt|].
    intros c [<-|Hc]; [|apply Hnone; exact Hc].
    intros [H2 _]. specialize (Hy a Ha). lra.
Qed.

(** The distance between two consecutive collections is a gap of any sorted
    frame with the same rows. *)
Lemma between_is_gap (rows : DataFrame) :
  StronglySorted date_le rows ->
  forall a b,
    consecutive_collections rows a b ->
    In (days (Collected_Date b - Collected_Date a)%Q) (gaps (map Collected_Date rows)).
Proof.
  induction 1 as [|x rows Hs IH Hall]; intros a b [Ha [Hb [Hlt Hnone]]]; [destruct Ha|].
  assert (Hx : forall c, In c rows -> (Collected_Date x <= Collected_Date c)%Q).
  { intros c Hc. rewrite Forall_forall in Hall. apply (Hall c Hc). }
  assert (Hb' : In b rows).
  { destruct Hb as [<-|Hb]; [|exact Hb]. exfalso.
    destruct Ha as [<-|Ha]; [lra|]. specialize (Hx a Ha). lra. }
  destruct rows as [|y rows']; [destruct Hb'|].
  change (gaps (map Collected_Date (x :: y :: rows')))
    with (days (Collected_Date y - Collected_Date x)%Q
          :: gaps (map Collected_Date (y :: rows'))).
  assert (Hy : forall c, In c (y :: rows') -> (Collected_Date y <= Collected_Date c)%Q).
  { intros c [<-|Hc]; [apply Qle_refl|].
    inversion Hs as [|? ? _ Hally]; subst. rewrite Forall_forall in Hally.
    apply (Hally c Hc). }
  assert (Hrest : forall a', In a' (y :: rows') ->
                  (Collected_Date a' == Collected_Date a)%Q ->
                  In (days (Collected_Date b - Collected_Date a)%Q)
                     (gaps (map Collected_Date (y :: rows')))).
  { intros a' Ha' Heq.
    rewrite (days_comp (Collected_Date a) (Collected_Date b)
                       (Collected_Date a') (Collected_Date b));
      [|symmetry; exact Heq | reflexivity].
    apply IH. split; [exact Ha'|]. split; [exact Hb'|]. split; [lra|].
    intros c Hc [H1 H2]. apply (Hnone c (or_intror Hc)). lra. }
  destruct Ha as [<-|Ha].
  - pose proof (Hx y (or_introl eq_refl)) as Hxy.
    pose proof (Hy b Hb') as Hyb.
    pose proof (Hnone y (or_intror (or_introl eq_refl))) as Hny.
    destruct (Qlt_le_dec (Collected_Date y) (Collected_Date b)) as [Hlt'|Hge].
    + right. apply (Hrest y (or_introl eq_refl)).
      apply Qle_antisym; [|exact Hxy].
      apply Qnot_lt_le. intros H. apply Hny. split; assumption.
    + left. apply days_comp; [reflexivity|]. apply Qle_antisym; assumption.
  - right. apply (Hrest a Ha). reflexivity.
Qed.

Lemma consecutive_perm (rows rows' : DataFrame) (a b : CollectionEvent) :
  Permutation rows rows' ->
  consecutive_collections rows a b -> consecutive_collections rows' a b.
Proof.
  intros Hp [Ha [Hb [Hlt Hnone]]].
  split; [apply (Permutation_in _ Hp Ha)|].
  split; [apply (Permutation_in _ Hp Hb)|]. split; [exact Hlt|].
  intros c Hc. apply Hnone. apply (Permutation_in _ (Permutation_sym Hp) Hc).
Qed.

Lemma entity_data_sorted_rows (df : DataFrame) (tl : Z) :
  sorted_rows_of (filter (has_license tl) df) (entity_data_of df tl).
Proof.
  unfold entity_data_of.
  split; [apply sort_values_by_date_perm | apply sort_values_by_date_sorted].
Qed.

Lemma pattern_of_valid_intervals (df : DataFrame) (tl : Z) :
  valid_intervals (map Collected_Date (entity_data_of df tl)) <> [] ->
  exists p, In p (entities (calculate_collection_patterns df)) /\ trade_license p = tl.
Proof.
  intros Hne.
  assert (Hlen : (2 <= length (entity_data_of df tl))%nat).
  { destruct (Nat.le_gt_cases 2 (length (entity_data_of df tl))) as [H|H]; [exact H|].
    exfalso. apply Hne. apply valid_intervals_short. rewrite length_map. exact H. }
  assert (Hsome : exists p, entity_pattern tl (entity_data_of df tl) = Some p).
  { unfold entity_pattern. apply Nat.leb_le in Hlen. rewrite Hlen.
    destruct (valid_intervals (map Collected_Date (entity_data_of df tl))) as [|g gs];
      [contradiction|].
    destruct (rev (entity_data_of df tl)) as [|last_row before] eqn:Er.
    - apply (f_equal (@length CollectionEvent)) in Er. rewrite length_rev in Er.
      apply Nat.leb_le in Hlen. simpl in Er. lia.
    - eexists. reflexivity. }
  destruct Hsome as [p Hp]. exists p. split.
  - apply entity_patterns_In. exists tl. split; [|exact Hp].
    destruct (entity_data_of df tl) as [|e rest] eqn:Ed; [simpl in Hlen; lia|].
    apply (entity_data_license df tl e). rewrite Ed. left. reflexivity.
  - apply entity_pattern_Some in Hp. destruct Hp as [_ [_ [_ [_ [Ht _]]]]]. exact Ht.
Qed.

(** ** Which licences get a pattern *)

(** A trade licence gets an entity pattern exactly when two consecutive
    collections among its rows (an earlier and a later one with no row of
    the licence dated strictly between them) are 1 to 120 whole days apart;
    a licence with a single row, or with same-day or distant repeats only,
    gets none. *)
Theorem pattern_iff_kept_gap :
  forall (df : DataFrame) (tl : Z),
    (exists p, In p (entities (calculate_collection_patterns df)) /\ trade_license p = tl) <->
    has_kept_gap (filter (has_license tl) df).
Proof.
  intros df tl.
  destruct (entity_data_sorted_rows df tl) as [Hperm Hsorted].
  split.
  - intros [p [Hp Ht]]. apply entity_patterns_In in Hp. destruct Hp as [tl' [_ Hp]].
    pose proof (entity_pattern_Some _ _ _ Hp) as [_ [_ [_ [_ [Ht' _]]]]].
    apply entity_pattern_fields in Hp. destruct Hp as [_ [_ [_ [Hne _]]]].
    assert (tl' = tl) by congruence. subst tl'. rewrite Ht in Hne.
    assert (Hex : exists g, In g (valid_intervals (map Collected_Date (entity_data_of df tl)))).
    { destruct (valid_intervals (map Collected_Date (entity_data_of df tl))) as [|g gs];
        [exfalso; apply Hne; reflexivity | exists g; left; reflexivity]. }
    destruct Hex as [g Hg].
    pose proof (valid_intervals_in_range (map Collected_Date (entity_data_of df tl))) as Hr.
    rewrite Forall_forall in Hr. specialize (Hr g Hg).
    rewrite valid_intervals_filter in Hg. apply filter_In in Hg. destruct Hg as [Hg _].
    destruct (gap_is_between _ g Hsorted Hg) as [a [b [Hc He]]]; [lia|].
    exists a, b. split; [apply (consecutive_perm _ _ a b Hperm Hc) | rewrite <- He; exact Hr].
  - intros [a [b [Hc Hr]]].
    apply pattern_of_valid_intervals.
    apply (consecutive_perm _ _ a b (Permutation_sym Hperm)) in Hc.
    pose proof (between_is_gap _ Hsorted a b Hc) as Hg.
    assert (Hin : In (days (Collected_Date b - Collected_Date a)%Q)
                     (valid_intervals (map Collected_Date (entity_data_of df tl)))).
    { rewrite valid_intervals_filter. apply filter_In. split; [exact Hg|].
      unfold in_range. apply andb_true_intro. split; apply Z.leb_le; lia. }
    intros Hnil. rewrite Hnil in Hin. destruct Hin.
Qed.

(** ** The interval of a licence (C10) *)




(** ** The interval of a category or an area (C5) *)

Lemma Forall2_map_r {A B : Type} (R : A -> B -> Prop) (f : A -> B) (xs : list A) :
  (forall x, R x (f x)) -> Forall2 R xs (map f xs).
Proof. intros H. induction xs as [|x xs IH]; constructor; auto. Qed.

Lemma group_entity_intervals_kept (group_data : DataFrame) (id : string) :
  kept_gaps_of (filter (has_entity id) group_data) (group_entity_intervals group_data id).
Proof.
  exists (sort_values_by_date (filter (has_entity id) group_data)).
  split; [split; [apply sort_values_by_date_perm | apply sort_values_by_date_sorted]|].
  unfold group_entity_intervals.
  destruct (2 <=? length (sort_values_by_date (filter (has_entity id) group_data)))%nat eqn:E.
  - apply valid_intervals_filter.
  - destruct (sort_values_by_date (filter (has_entity id) group_data)) as [|a [|b rest]];
      [reflexivity | reflexivity | discriminate].
Qed.

Lemma pooled_interval_of_group (group_data : DataFrame) :
  pooled_interval_of group_data
    (mean_or_14 (flat_map (group_entity_intervals group_data)
                          (unique String.eqb (map New_E_ID group_data)))).
Proof.
  exists (unique String.eqb (map New_E_ID group_data)),
         (per_entity_intervals group_data).
  split; [apply (unique_NoDup String.eqb String.eqb_eq)|].
  split; [intros id; apply (unique_In String.eqb String.eqb_eq)|].
  split; [apply Forall2_map_r; intros id; apply group_entity_intervals_kept|].
  rewrite flat_map_concat_map. fold (per_entity_intervals group_data).
  rewrite mean_or_14_concat. unfold pooled_gap_mean. cbv zeta.
  destruct (list_sum (map (@length Z) (per_entity_intervals group_data)) =? 0)%nat;
    [reflexivity|].
  split.
  - eexists. unfold round1. reflexivity.
  - apply round1_close.
Qed.

(** C5, amended. For every category and every area, take the distinct entity
    identifiers of the group's rows and, for each, the gaps of 1 to 120 whole
    days between consecutive rows of that entity within the group, in
    ascending date order. The group's avg_interval_days is the mean of all
    those gaps together, given to one decimal: an entity weighs as many times
    as it has kept gaps, and one without a kept gap does not enter the mean.
    A group without any kept gap gets 14. *)
Theorem group_interval_pools_kept_gaps :
  forall (df : DataFrame) (key : string),
    pooled_interval_of (filter (in_category key) df)
                       (Cat.avg_interval_days (category_pattern df key)) /\
    pooled_interval_of (filter (in_area key) df)
                       (Geo.avg_interval_days (geographic_pattern df key)).
Proof.
  intros df key. split.
  - apply (pooled_interval_of_group (filter (in_category key) df)).
  - apply (pooled_interval_of_group (filter (in_area key) df)).
Qed.

(** ** The alert list on more than twenty critical entities (C2) *)

(** C2. The code at a failing input: of 22 critical entities, 11 to 32 days
    overdue in pattern order, the alert list keeps the first twenty as they
    come, 11 to 30 days overdue in ascending order, and leaves out the two
    most overdue. *)
Theorem critical_alerts_drop_most_overdue :
  map days_overdue
      (filter (has_risk critical) (entities (calculate_collection_patterns df_many_critical)))
  = map Z.of_nat (seq 11 22) /\
  match generate_delays_analysis (calculate_collection_patterns df_many_critical) with
  | Ok r =>
      map Alert.days_overdue (Delays.critical_alerts r) = map Z.of_nat (seq 11 20) /\
      overdue_descending (Delays.critical_alerts r) = false
  | Raise _ => False
  end.
Proof. vm_compute. repeat split; reflexivity. Qed.
